(** * Marching squares: cell classification and vertex generation

    A shallow embedding of
    [modules/layers/src/contour-layer/marching-squares.js]
    ([getVertexCode], [getCode], [getVertices]) and the properties its
    specification states about it.

    Conventions of the embedding.
    - A JavaScript number is a [num]: an exact rational, one of the two
      infinities, or NaN.  Arithmetic on finite numbers is exact (binary
      rounding, overflow and the sign of zero are not modelled);
      comparisons, [Number.isFinite] and truthiness follow the language.
    - Cell coordinates, grid sizes, corner classes and configuration codes
      are integers ([Z]); shifts and bitwise-or are [Z.shiftl] and [Z.lor]
      (every operand is in 0..2, far from the 32-bit limit).
    - [assert] failures become [Err e], where [e] names the assertion.
    - The two offset tables live in [marching-squares-codes], which is not
      part of the verified file: they are parameters of [getVertices]. *)

From Stdlib Require Import ZArith QArith Lia Lqa.
From stdpp Require Import base option list gmap strings.

Local Open Scope Z_scope.

(** ** JavaScript numbers *)

Inductive num : Type :=
| Fin (q : Q)
| PInf
| NInf
| NaN.

Definition Qltb (a b : Q) : bool :=
  match Qcompare a b with Lt => true | _ => false end.

Definition Qis0 (a : Q) : bool :=
  match Qcompare a 0%Q with Eq => true | _ => false end.

(** [a < b] *)
Definition num_lt (a b : num) : bool :=
  match a, b with
  | NaN, _ | _, NaN => false
  | Fin p, Fin q => Qltb p q
  | NInf, NInf => false
  | NInf, _ => true
  | _, NInf => false
  | PInf, _ => false
  | Fin _, PInf => true
  end.

Definition num_isNaN (a : num) : bool :=
  match a with NaN => true | _ => false end.

(** [a >= b] *)
Definition num_ge (a b : num) : bool :=
  negb (num_isNaN a) && negb (num_isNaN b) && negb (num_lt a b).

(** [a <= b] *)
Definition num_le (a b : num) : bool := num_ge b a.

(** [Number.isFinite] on a number *)
Definition num_isFinite (a : num) : bool :=
  match a with Fin _ => true | _ => false end.

Definition inf_of_sign (positive : bool) : num :=
  if positive then PInf else NInf.

(** [a + b] *)
Definition num_add (a b : num) : num :=
  match a, b with
  | NaN, _ | _, NaN => NaN
  | Fin p, Fin q => Fin (p + q)%Q
  | PInf, NInf | NInf, PInf => NaN
  | PInf, _ | _, PInf => PInf
  | NInf, _ | _, NInf => NInf
  end.

(** sign of a number that is neither zero nor NaN: [true] when positive *)
Definition num_positive (a : num) : bool :=
  match a with
  | Fin q => Qltb 0%Q q
  | PInf => true
  | _ => false
  end.

Definition num_is0 (a : num) : bool :=
  match a with Fin q => Qis0 q | _ => false end.

(** [a * b] *)
Definition num_mul (a b : num) : num :=
  match a, b with
  | NaN, _ | _, NaN => NaN
  | Fin p, Fin q => Fin (p * q)%Q
  | _, _ =>
      if num_is0 a || num_is0 b then NaN
      else inf_of_sign (Bool.eqb (num_positive a) (num_positive b))
  end.

(** [a / b] *)
Definition num_div (a b : num) : num :=
  match a, b with
  | NaN, _ | _, NaN => NaN
  | Fin p, Fin q =>
      if Qis0 q then
        if Qis0 p then NaN else inf_of_sign (Qltb 0%Q p)
      else Fin (p / q)%Q
  | Fin _, _ => Fin 0%Q
  | _, Fin q => inf_of_sign (Bool.eqb (num_positive a) (negb (Qltb q 0%Q)))
  | _, _ => NaN
  end.

Definition num_of_Z (z : Z) : num := Fin (inject_Z z).

(** ** JavaScript values reaching the two functions *)

Inductive value : Type :=
| VUndefined
| VNull
| VBool (b : bool)
| VNum (n : num)
| VString (s : string)
| VArray (elements : list num)
| VObject.

(** truthiness, as tested by [if (v)] and [assert(v)] *)
Definition truthy (v : value) : bool :=
  match v with
  | VUndefined | VNull => false
  | VBool b => b
  | VNum n => negb (num_is0 n) && negb (num_isNaN n)
  | VString s => negb (String.eqb s EmptyString)
  | VArray _ | VObject => true
  end.

(** [Number.isFinite(v)]: no coercion, only finite numbers pass *)
Definition isFinite (v : value) : bool :=
  match v with VNum n => num_isFinite n | _ => false end.

(** [Array.isArray(v)] *)
Definition isArray (v : value) : bool :=
  match v with VArray _ => true | _ => false end.

(** [v.length] where [v] is an array *)
Definition arrayLength (v : value) : Z :=
  match v with VArray a => Z.of_nat (length a) | _ => 0 end.

(** [a[i]] on an array of numbers; a read outside the array gives
    [undefined], which every use below (comparison, addition,
    [Number.isFinite]) treats as NaN. *)
Definition item (a : list num) (i : Z) : num :=
  if i <? 0 then NaN else default NaN (a !! Z.to_nat i).

(** ** Assertion failures *)

Inductive error : Type :=
| InvalidThreshold   (* getVertexCode: threshold shape *)
| OutOfRange         (* getCode / getVertices: cell address *)
| NegativeCode       (* getCode: [assert(code >= 0)] *)
| NonFiniteWeight    (* getCode: the four weights of an interior cell *)
| UnsupportedType    (* getVertices: [default: assert(false)] *)
| UnmappedCode.      (* getVertices: no offsets for the code *)

Inductive result (A : Type) : Type :=
| Ok (a : A)
| Err (e : error).
Arguments Ok {A} a.
Arguments Err {A} e.

Definition bind {A B} (r : result A) (k : A -> result B) : result B :=
  match r with
  | Ok a => k a
  | Err e => Err e
  end.

Definition assert (b : bool) (e : error) : result unit :=
  if b then Ok tt else Err e.

Declare Scope js_scope.
Delimit Scope js_scope with js.
Notation "'let!' x ':=' r 'in' k" := (bind r (fun x => k))
  (at level 10, x name, r at level 100, k at level 200) : js_scope.
Notation "'assert!' b 'or' e 'in' k" := (bind (assert b e) (fun _ => k))
  (at level 10, b at level 100, e at level 0, k at level 200) : js_scope.
Local Open Scope js_scope.

(** ** Constants *)

Definition ISO_LINES : Z := 1.
Definition ISO_BANDS : Z := 2.

Definition Z_OFFSET : num := Fin (2 # 1000).

(** ** getVertexCode *)

Definition getVertexCode (weight : num) (threshold : value) : result Z :=
  assert! isFinite threshold || (isArray threshold && (1 <? arrayLength threshold))
    or InvalidThreshold in
  match threshold with
  | VArray t =>
      (* Iso-bands *)
      if num_lt weight (item t 0) then Ok 0
      else Ok (if num_lt weight (item t 1) then 1 else 2)
  | VNum t =>
      (* Iso-lines *)
      Ok (if num_ge weight t then 1 else 0)
  | _ => Ok 0 (* not reached: the assertion admits numbers and arrays only *)
  end.

(** ** getCode *)

Module CodeOpts.
Record t : Type := {
  cellWeights : list num;
  x : Z;
  y : Z;
  width : Z;
  height : Z;
  threshold : value;
  thresholdValue : value
}.
End CodeOpts.

(** A message sent to [log.deprecated(oldUsage, newUsage)]. *)
Inductive warning : Type :=
| Deprecated (oldUsage newUsage : string).

(** One corner of the 2x2 window: the sample stored in the [weights]
    object (absent when the corner was not read) and its entry in the
    [codes] object. *)
Record corner : Type := {
  weight : option num;
  class : Z
}.

Record corners : Type := {
  top : corner;
  topRight : corner;
  right : corner;
  current : corner
}.

(** [Number.isFinite(weights.k)]: an absent property is [undefined]. *)
Definition weightIsFinite (c : corner) : bool :=
  match weight c with Some w => num_isFinite w | None => false end.

(** [weights.k] as an operand of [+]. *)
Definition weightOperand (c : corner) : num := default NaN (weight c).

(** The choice of threshold: [opts.threshold], replaced by
    [opts.thresholdValue] when that is truthy, with a deprecation message. *)
Definition selectThreshold (opts : CodeOpts.t) : list warning * value :=
  if truthy (CodeOpts.thresholdValue opts)
  then ([Deprecated "thresholdValue" "threshold"], CodeOpts.thresholdValue opts)
  else ([], CodeOpts.threshold opts).

(** One of the four blocks TOP, TOP-RIGHT, RIGHT, CURRENT. *)
Definition classifyCorner (onBoundary : bool) (cellWeights : list num)
    (index : Z) (threshold : value) : result corner :=
  if onBoundary then Ok {| weight := None; class := 0 |}
  else
    let w := item cellWeights index in
    let! c := getVertexCode w threshold in
    Ok {| weight := Some w; class := c |}.

(** The part of [getCode] that fills [weights] and [codes]. *)
Definition classifyCorners (opts : CodeOpts.t) (threshold : value) : result corners :=
  let cellWeights := CodeOpts.cellWeights opts in
  let x := CodeOpts.x opts in
  let y := CodeOpts.y opts in
  let width := CodeOpts.width opts in
  let height := CodeOpts.height opts in
  let isLeftBoundary := x <? 0 in
  let isRightBoundary := x >=? width - 1 in
  let isBottomBoundary := y <? 0 in
  let isTopBoundary := y >=? height - 1 in
  let! top := classifyCorner (isLeftBoundary || isTopBoundary)
                cellWeights ((y + 1) * width + x) threshold in
  let! topRight := classifyCorner (isRightBoundary || isTopBoundary)
                     cellWeights ((y + 1) * width + x + 1) threshold in
  let! right := classifyCorner (isRightBoundary || isBottomBoundary)
                  cellWeights (y * width + x + 1) threshold in
  let! current := classifyCorner (isLeftBoundary || isBottomBoundary)
                    cellWeights (y * width + x) threshold in
  Ok {| top := top; topRight := topRight; right := right; current := current |}.

Definition isBoundary (opts : CodeOpts.t) : bool :=
  let x := CodeOpts.x opts in
  let y := CodeOpts.y opts in
  (x <? 0) || (x >=? CodeOpts.width opts - 1)
  || (y <? 0) || (y >=? CodeOpts.height opts - 1).

(** The conjunction asserted on [weights] for a cell off the boundary. *)
Definition allWeightsFinite (cs : corners) : bool :=
  weightIsFinite (top cs) && weightIsFinite (topRight cs)
  && weightIsFinite (right cs) && weightIsFinite (current cs).

(** [(weights.top + weights.topRight + weights.right + weights.current) / 4] *)
Definition meanWeight (cs : corners) : num :=
  num_div
    (num_add (num_add (num_add (weightOperand (top cs)) (weightOperand (topRight cs)))
                      (weightOperand (right cs)))
             (weightOperand (current cs)))
    (num_of_Z 4).

(** [getCode] once the threshold is chosen. *)
Definition getCodeWith (opts : CodeOpts.t) (threshold : value) : result (Z * Z) :=
  let x := CodeOpts.x opts in
  let y := CodeOpts.y opts in
  assert! (x >=? -1) && (x <? CodeOpts.width opts) or OutOfRange in
  assert! (y >=? -1) && (y <? CodeOpts.height opts) or OutOfRange in
  let! cs := classifyCorners opts threshold in
  let top := class (top cs) in
  let topRight := class (topRight cs) in
  let right := class (right cs) in
  let current := class (current cs) in
  let code := -1 in
  let code :=
    if isFinite threshold
    then Z.lor (Z.lor (Z.lor (Z.shiftl top 3) (Z.shiftl topRight 2)) (Z.shiftl right 1)) current
    else code in
  let code :=
    if isArray threshold
    then Z.lor (Z.lor (Z.lor (Z.shiftl top 6) (Z.shiftl topRight 4)) (Z.shiftl right 2)) current
    else code in
  assert! code >=? 0 or NegativeCode in
  let! meanCode :=
    if negb (isBoundary opts) then
      (assert! allWeightsFinite cs or NonFiniteWeight in
       getVertexCode (meanWeight cs) threshold)
    else Ok 0 in
  Ok (code, meanCode).

(** [getCode(opts)]: the messages logged and the outcome. *)
Definition getCode (opts : CodeOpts.t) : list warning * result (Z * Z) :=
  let '(messages, threshold) := selectThreshold opts in
  (messages, getCodeWith opts threshold).

(** ** getVertices *)

(** [opts.thresholdData]: either property may be absent. *)
Record ThresholdData : Type := {
  zIndex : option num;
  zOffsetScale : option num
}.

Definition DEFAULT_THRESHOLD_DATA : num * num := (num_of_Z 0, num_of_Z 1).

(** [Object.assign({}, DEFAULT_THRESHOLD_DATA, data)] as the pair
    [(zIndex, zOffsetScale)]. *)
Definition assignThresholdData (data : option ThresholdData) : num * num :=
  match data with
  | None => DEFAULT_THRESHOLD_DATA
  | Some d => (default (fst DEFAULT_THRESHOLD_DATA) (zIndex d),
               default (snd DEFAULT_THRESHOLD_DATA) (zOffsetScale d))
  end.

Module VertexOpts.
Record t : Type := {
  gridOrigin : list num;
  cellSize : list num;
  x : Z;
  y : Z;
  code : Z;
  meanCode : Z;
  type : value;
  thresholdData : option ThresholdData
}.
End VertexOpts.

(** An offset is an array [[ox, oy]]; a template (a segment for iso-lines,
    a polygon for iso-bands) is an array of offsets. *)
Definition offset : Type := list num.
Definition templates : Type := list (list offset).

(** A value of an offset table: the templates of the code, or, for a saddle
    code, an object from mean code to templates. *)
Inductive tableEntry : Type :=
| Direct (ts : templates)
| Saddle (byMeanCode : gmap Z templates).

(** What [getVertices] returns: for ISO_LINES a flat array of vertices, for
    ISO_BANDS an array of polygons; a vertex is an array [[vX, vY, vZ]]. *)
Inductive geometry : Type :=
| Vertices (vertices : list (list num))
| Polygons (polygons : list (list (list num))).

(** [v === k] for an integer literal [k]. *)
Definition strictEqZ (v : value) (k : Z) : bool :=
  match v with
  | VNum (Fin q) => Qeq_bool q (inject_Z k)
  | _ => false
  end.

(** The destructuring default [type = CONTOUR_TYPE.ISO_LINES]. *)
Definition typeOrDefault (v : value) : value :=
  match v with
  | VUndefined => VNum (num_of_Z ISO_LINES)
  | _ => v
  end.

Section Tables.

(** The tables exported by [marching-squares-codes]. *)
Variable ISOLINES_CODE_OFFSET_MAP : gmap Z tableEntry.
Variable ISOBANDS_CODE_OFFSET_MAP : gmap Z tableEntry.

Definition getVertices (opts : VertexOpts.t) : result geometry :=
  let gridOrigin := VertexOpts.gridOrigin opts in
  let cellSize := VertexOpts.cellSize opts in
  let x := VertexOpts.x opts in
  let y := VertexOpts.y opts in
  let code := VertexOpts.code opts in
  let meanCode := VertexOpts.meanCode opts in
  let type := typeOrDefault (VertexOpts.type opts) in
  let thresholdData := assignThresholdData (VertexOpts.thresholdData opts) in
  let! offsets :=
    if strictEqZ type ISO_LINES then Ok (ISOLINES_CODE_OFFSET_MAP !! code)
    else if strictEqZ type ISO_BANDS then Ok (ISOBANDS_CODE_OFFSET_MAP !! code)
    else Err UnsupportedType in
  (* assert(offsets) *)
  let! offsets :=
    match offsets with
    | Some entry => Ok entry
    | None => Err UnmappedCode
    end in
  (* handle saddle cases, then assert(Array.isArray(offsets)) *)
  let! offsets :=
    match offsets with
    | Direct ts => Ok ts
    | Saddle byMeanCode =>
        match byMeanCode !! meanCode with
        | Some ts => Ok ts
        | None => Err UnmappedCode
        end
    end in
  assert! x >=? -1 or OutOfRange in
  assert! y >=? -1 or OutOfRange in
  let vZ := num_mul (num_mul (fst thresholdData) Z_OFFSET) (snd thresholdData) in
  let rX := num_mul (num_of_Z (x + 1)) (item cellSize 0) in
  let rY := num_mul (num_of_Z (y + 1)) (item cellSize 1) in
  let refVertexX := num_add (item gridOrigin 0) rX in
  let refVertexY := num_add (item gridOrigin 1) rY in
  let vertex (offset : offset) : list num :=
    let vX := num_add refVertexX (num_mul (item offset 0) (item cellSize 0)) in
    let vY := num_add refVertexY (num_mul (item offset 1) (item cellSize 1)) in
    [vX; vY; vZ] in
  if strictEqZ type ISO_LINES then
    Ok (Vertices (flat_map (fun xyOffsets => map vertex xyOffsets) offsets))
  else if strictEqZ type ISO_BANDS then
    Ok (Polygons (map (fun polygonOffsets => map vertex polygonOffsets) offsets))
  else Err UnsupportedType.

End Tables.

(** ** Vocabulary of the specification *)

(** ThresholdSpec: a finite scalar, or a pair [[lo, hi]] with [lo < hi]. *)
Definition isThresholdSpec (t : value) : bool :=
  match t with
  | VNum n => num_isFinite n
  | VArray [lo; hi] => num_lt lo hi
  | _ => false
  end.

(** What the comment in [getVertexCode] asks for, as its assertion tests it:
    a finite number, or an array with more than one element. *)
Definition isValueOrRange (t : value) : bool :=
  match t with
  | VNum n => num_isFinite n
  | VArray a => (1 <? Z.of_nat (length a))
  | _ => false
  end.

(** CornerClass of a sample: iso-line mode 0 (below) or 1 (at or above);
    iso-band mode 0 (below lo), 1 (in [[lo, hi)]), 2 (at or above hi). *)
Definition classOf (w : num) (t : value) : Z :=
  match t with
  | VArray a => if num_lt w (item a 0) then 0 else if num_lt w (item a 1) then 1 else 2
  | VNum n => if num_ge w n then 1 else 0
  | _ => 0
  end.

(** CellAddress in the ghost-inclusive range. *)
Definition validAddress (opts : CodeOpts.t) : Prop :=
  -1 <= CodeOpts.x opts < CodeOpts.width opts
  /\ -1 <= CodeOpts.y opts < CodeOpts.height opts.

(** ScalarField: positive sizes, [width * height] finite samples. *)
Definition ScalarField (opts : CodeOpts.t) : Prop :=
  0 < CodeOpts.width opts
  /\ 0 < CodeOpts.height opts
  /\ Z.of_nat (length (CodeOpts.cellWeights opts))
     = CodeOpts.width opts * CodeOpts.height opts
  /\ Forall (fun w => num_isFinite w = true) (CodeOpts.cellWeights opts).

(** The four logical corners of a cell and where they lie. *)
Inductive cornerName : Type := Top | TopRight | Right | Current.

Definition cornerPosition (opts : CodeOpts.t) (k : cornerName) : Z * Z :=
  let x := CodeOpts.x opts in
  let y := CodeOpts.y opts in
  match k with
  | Top => (x, y + 1)
  | TopRight => (x + 1, y + 1)
  | Right => (x + 1, y)
  | Current => (x, y)
  end.

Definition cornerOf (cs : corners) (k : cornerName) : corner :=
  match k with
  | Top => top cs
  | TopRight => topRight cs
  | Right => right cs
  | Current => current cs
  end.

(** A position lies in [[0, width) x [0, height)]. *)
Definition inGrid (opts : CodeOpts.t) (p : Z * Z) : bool :=
  (0 <=? fst p) && (fst p <? CodeOpts.width opts)
  && (0 <=? snd p) && (snd p <? CodeOpts.height opts).

(** The sample at [(cx, cy)]: [data[cy * width + cx]]. *)
Definition sampleAt (opts : CodeOpts.t) (p : Z * Z) : num :=
  item (CodeOpts.cellWeights opts) (snd p * CodeOpts.width opts + fst p).

(** [c] is the class of corner [k]: 0 outside the grid, otherwise the
    class [getVertexCode] gives to the sample there. *)
Definition cornerHasClass (opts : CodeOpts.t) (t : value) (k : cornerName) (c : Z) : Prop :=
  if inGrid opts (cornerPosition opts k)
  then getVertexCode (sampleAt opts (cornerPosition opts k)) t = Ok c
  else c = 0.

(** The two packings of four classes into a code. *)
Definition packLines (top topRight right current : Z) : Z :=
  Z.lor (Z.lor (Z.lor (Z.shiftl top 3) (Z.shiftl topRight 2)) (Z.shiftl right 1)) current.

Definition packBands (top topRight right current : Z) : Z :=
  Z.lor (Z.lor (Z.lor (Z.shiftl top 6) (Z.shiftl topRight 4)) (Z.shiftl right 2)) current.

(** The record [getCode] builds for corner [k]: nothing read and class 0
    outside the grid, the sample and its class inside. *)
Definition cornerRecord (opts : CodeOpts.t) (t : value) (k : cornerName) : corner :=
  if inGrid opts (cornerPosition opts k)
  then {| weight := Some (sampleAt opts (cornerPosition opts k));
          class := classOf (sampleAt opts (cornerPosition opts k)) t |}
  else {| weight := None; class := 0 |}.

Definition cornerRecords (opts : CodeOpts.t) (t : value) : corners :=
  {| top := cornerRecord opts t Top;
     topRight := cornerRecord opts t TopRight;
     right := cornerRecord opts t Right;
     current := cornerRecord opts t Current |}.

(** The code packed from four corner records, by the mode of the threshold. *)
Definition packCorners (t : value) (cs : corners) : Z :=
  if isArray t
  then packBands (class (top cs)) (class (topRight cs)) (class (right cs)) (class (current cs))
  else packLines (class (top cs)) (class (topRight cs)) (class (right cs)) (class (current cs)).

(** The corner slots of an iso-line code (one bit each) and of an iso-band
    code (two bits each), in the order top, top-right, right, current. *)
Definition lineSlots (code : Z) : list Z :=
  map (fun s => Z.land (Z.shiftr code s) 1) [3; 2; 1; 0].

Definition bandSlots (code : Z) : list Z :=
  map (fun s => Z.land (Z.shiftr code s) 3) [6; 4; 2; 0].

(** Number of corner slots of an iso-line code that hold class 1. *)
Definition class1Corners (code : Z) : nat :=
  length (filter (fun c => c = 1) (lineSlots code)).

(** The same call with the canonical option only. *)
Definition withThreshold (opts : CodeOpts.t) (t : value) : CodeOpts.t :=
  {| CodeOpts.cellWeights := CodeOpts.cellWeights opts;
     CodeOpts.x := CodeOpts.x opts;
     CodeOpts.y := CodeOpts.y opts;
     CodeOpts.width := CodeOpts.width opts;
     CodeOpts.height := CodeOpts.height opts;
     CodeOpts.threshold := t;
     CodeOpts.thresholdValue := VUndefined |}.

(** The same call to [getVertices] with another [type]. *)
Definition withType (opts : VertexOpts.t) (ty : value) : VertexOpts.t :=
  {| VertexOpts.gridOrigin := VertexOpts.gridOrigin opts;
     VertexOpts.cellSize := VertexOpts.cellSize opts;
     VertexOpts.x := VertexOpts.x opts;
     VertexOpts.y := VertexOpts.y opts;
     VertexOpts.code := VertexOpts.code opts;
     VertexOpts.meanCode := VertexOpts.meanCode opts;
     VertexOpts.type := ty;
     VertexOpts.thresholdData := VertexOpts.thresholdData opts |}.

(** The templates an offset table holds for [code], resolved by
    [meanCode] when the entry is a saddle. *)
Definition lookupTemplates (table : gmap Z tableEntry) (code meanCode : Z) : option templates :=
  match table !! code with
  | Some (Direct ts) => Some ts
  | Some (Saddle byMeanCode) => byMeanCode !! meanCode
  | None => None
  end.

(** LayerDepth [(zIndex, zOffsetScale)]: the values supplied, 0 and 1
    where none is. *)
Definition layerDepth (opts : VertexOpts.t) : num * num :=
  match VertexOpts.thresholdData opts with
  | None => (num_of_Z 0, num_of_Z 1)
  | Some d => (default (num_of_Z 0) (zIndex d), default (num_of_Z 1) (zOffsetScale d))
  end.

(** The world point of a fractional offset [(ox, oy)]:
    [(refX + ox * cellSize.x, refY + oy * cellSize.y, vz)] with
    [refX = origin.x + (x + 1) * cellSize.x],
    [refY = origin.y + (y + 1) * cellSize.y] and
    [vz = zIndex * Z_OFFSET * zOffsetScale]. *)
Definition worldPoint (opts : VertexOpts.t) (o : offset) : list num :=
  let origin := VertexOpts.gridOrigin opts in
  let cellSize := VertexOpts.cellSize opts in
  let refX := num_add (item origin 0)
                (num_mul (num_of_Z (VertexOpts.x opts + 1)) (item cellSize 0)) in
  let refY := num_add (item origin 1)
                (num_mul (num_of_Z (VertexOpts.y opts + 1)) (item cellSize 1)) in
  let vz := num_mul (num_mul (fst (layerDepth opts)) Z_OFFSET) (snd (layerDepth opts)) in
  [num_add refX (num_mul (item o 0) (item cellSize 0));
   num_add refY (num_mul (item o 1) (item cellSize 1));
   vz].

(** ** Test data *)

(** Scenario grid: width 2, height 2, samples [[0, 0, 0, 10]]. *)
Definition scenarioCell (t : value) (x y : Z) : CodeOpts.t :=
  {| CodeOpts.cellWeights := map num_of_Z [0; 0; 0; 10];
     CodeOpts.x := x;
     CodeOpts.y := y;
     CodeOpts.width := 2;
     CodeOpts.height := 2;
     CodeOpts.threshold := t;
     CodeOpts.thresholdValue := VUndefined |}.

Definition minusHalf : num := Fin (- 1 # 2).
Definition minusOne : num := Fin (- 1).

(** A small pair of tables of the documented shape: a plain entry, an
    empty entry and a saddle entry for iso-lines, one polygon for
    iso-bands. *)
Definition sampleLinesTable : gmap Z tableEntry :=
  {[ 0 := Direct [];
     4 := Direct [[ [minusHalf; num_of_Z 0]; [num_of_Z 0; minusHalf] ]];
     5 := Saddle {[ 0 := [[ [minusOne; minusHalf]; [minusHalf; num_of_Z 0] ];
                            [ [minusHalf; minusOne]; [num_of_Z 0; minusHalf] ]];
                    1 := [[ [minusOne; minusHalf]; [minusHalf; minusOne] ];
                            [ [minusHalf; num_of_Z 0]; [num_of_Z 0; minusHalf] ]] ]} ]}.

Definition sampleBandsTable : gmap Z tableEntry :=
  {[ 32 := Direct [[ [minusHalf; num_of_Z 0]; [num_of_Z 0; num_of_Z 0];
                     [num_of_Z 0; minusHalf] ]] ]}.

Definition sampleVertexOpts (ty : value) (code meanCode : Z) : VertexOpts.t :=
  {| VertexOpts.gridOrigin := [num_of_Z 100; num_of_Z 200];
     VertexOpts.cellSize := [num_of_Z 10; num_of_Z 20];
     VertexOpts.x := 0;
     VertexOpts.y := 0;
     VertexOpts.code := code;
     VertexOpts.meanCode := meanCode;
     VertexOpts.type := ty;
     VertexOpts.thresholdData := None |}.

(** ** Variations of a call *)

(** The same call to [getCode] at another cell. *)
Definition withAddress (opts : CodeOpts.t) (x y : Z) : CodeOpts.t :=
  {| CodeOpts.cellWeights := CodeOpts.cellWeights opts;
     CodeOpts.x := x;
     CodeOpts.y := y;
     CodeOpts.width := CodeOpts.width opts;
     CodeOpts.height := CodeOpts.height opts;
     CodeOpts.threshold := CodeOpts.threshold opts;
     CodeOpts.thresholdValue := CodeOpts.thresholdValue opts |}.

(** The same call to [getCode] on other samples. *)
Definition withWeights (opts : CodeOpts.t) (ws : list num) : CodeOpts.t :=
  {| CodeOpts.cellWeights := ws;
     CodeOpts.x := CodeOpts.x opts;
     CodeOpts.y := CodeOpts.y opts;
     CodeOpts.width := CodeOpts.width opts;
     CodeOpts.height := CodeOpts.height opts;
     CodeOpts.threshold := CodeOpts.threshold opts;
     CodeOpts.thresholdValue := CodeOpts.thresholdValue opts |}.

(** The same call to [getVertices] with another [code] and [meanCode]. *)
Definition withCodes (opts : VertexOpts.t) (code meanCode : Z) : VertexOpts.t :=
  {| VertexOpts.gridOrigin := VertexOpts.gridOrigin opts;
     VertexOpts.cellSize := VertexOpts.cellSize opts;
     VertexOpts.x := VertexOpts.x opts;
     VertexOpts.y := VertexOpts.y opts;
     VertexOpts.code := code;
     VertexOpts.meanCode := meanCode;
     VertexOpts.type := VertexOpts.type opts;
     VertexOpts.thresholdData := VertexOpts.thresholdData opts |}.


(** The corner slots of a code, read by the mode of the threshold. *)
Definition codeSlots (t : value) (code : Z) : list Z :=
  if isArray t then bandSlots code else lineSlots code.

(** An iso-line table with templates for each of the codes 0..15, under
    both mean codes. *)
Definition completeLinesTable (table : gmap Z tableEntry) : Prop :=
  forall code meanCode,
    0 <= code <= 15 -> 0 <= meanCode <= 1 ->
    is_Some (lookupTemplates table code meanCode).

(** The depth shared by the vertices of one call. *)
Definition depthOf (opts : VertexOpts.t) : num :=
  num_mul (num_mul (fst (layerDepth opts)) Z_OFFSET) (snd (layerDepth opts)).

(** The templates [getVertices] works from: those of the iso-line table
    for ISO_LINES (or no type), those of the iso-band table for ISO_BANDS,
    none for another type. *)
Definition selectedTemplates (lines bands : gmap Z tableEntry) (opts : VertexOpts.t)
  : option templates :=
  if strictEqZ (typeOrDefault (VertexOpts.type opts)) ISO_LINES
  then lookupTemplates lines (VertexOpts.code opts) (VertexOpts.meanCode opts)
  else if strictEqZ (typeOrDefault (VertexOpts.type opts)) ISO_BANDS
       then lookupTemplates bands (VertexOpts.code opts) (VertexOpts.meanCode opts)
       else None.

(** The type is one of the two the switch of [getVertices] knows. *)
Definition recognisedType (opts : VertexOpts.t) : bool :=
  strictEqZ (typeOrDefault (VertexOpts.type opts)) ISO_LINES
  || strictEqZ (typeOrDefault (VertexOpts.type opts)) ISO_BANDS.

(** The geometry built from templates, by type. *)
Definition geometryOf (opts : VertexOpts.t) (ts : templates) : geometry :=
  if strictEqZ (typeOrDefault (VertexOpts.type opts)) ISO_LINES
  then Vertices (flat_map (map (worldPoint opts)) ts)
  else Polygons (map (map (worldPoint opts)) ts).

(** A table with one entry per iso-line code: the two diagonal codes are
    saddles, the others carry one segment (none for 0 and 15). *)
Definition diagonal : list offset := [ [minusHalf; num_of_Z 0]; [num_of_Z 0; minusHalf] ].

Definition fullLinesTable : gmap Z tableEntry :=
  list_to_map
    (map (fun c : Z =>
            (c, if (c =? 5) || (c =? 10)
                then Saddle {[ 0 := [diagonal]; 1 := [diagonal; diagonal] ]}
                else if (c =? 0) || (c =? 15) then Direct []
                else Direct [diagonal]))
         (seqZ 0 16)).

(** * Properties *)

(** ** Order on numbers *)

Lemma Qltb_lt (a b : Q) : Qltb a b = true <-> (a < b)%Q.
Proof.
  unfold Qltb. rewrite Qlt_alt.
  destruct (Qcompare a b); split; congruence.
Qed.

Lemma Qltb_ge (a b : Q) : Qltb a b = false <-> (b <= a)%Q.
Proof.
  split; intros H.
  - apply Qnot_lt_le. intros Hlt. apply Qltb_lt in Hlt. congruence.
  - destruct (Qltb a b) eqn:E; [|reflexivity].
    apply Qltb_lt in E. exfalso. apply (Qlt_not_le _ _ E H).
Qed.

Ltac q_order :=
  repeat match goal with
         | H : Qltb _ _ = true |- _ => apply Qltb_lt in H
         | H : Qltb _ _ = false |- _ => apply Qltb_ge in H
         | |- Qltb _ _ = true => apply Qltb_lt
         | |- Qltb _ _ = false => apply Qltb_ge
         end;
  lra.

(** [a <= b] and [b < c] give [a < c]. *)
Lemma num_le_lt_trans (a b c : num) :
  num_le a b = true -> num_lt b c = true -> num_lt a c = true.
Proof.
  unfold num_le, num_ge.
  destruct a, b, c; simpl; try congruence; intros Hab Hbc.
  apply negb_true_iff in Hab. q_order.
Qed.

(** [c <= a] and [a <= b] give [c <= b]. *)
Lemma num_le_trans (c a b : num) :
  num_le c a = true -> num_le a b = true -> num_le c b = true.
Proof.
  unfold num_le, num_ge.
  destruct a, b, c; simpl; try congruence; intros Hca Hab.
  apply negb_true_iff in Hca, Hab. apply negb_true_iff. q_order.
Qed.

(** ** getVertexCode *)

Lemma isThresholdSpec_isValueOrRange (t : value) :
  isThresholdSpec t = true -> isValueOrRange t = true.
Proof.
  destruct t as [| | |n|s|a|]; simpl; try congruence.
  destruct a as [|lo [|hi [|? ?]]]; simpl; try congruence. reflexivity.
Qed.

Lemma assertion_isValueOrRange (t : value) :
  isFinite t || (isArray t && (1 <? arrayLength t)) = isValueOrRange t.
Proof. destruct t; simpl; rewrite ?orb_false_r; reflexivity. Qed.

Lemma getVertexCode_accepted (w : num) (t : value) :
  isValueOrRange t = true -> getVertexCode w t = Ok (classOf w t).
Proof.
  intros H. unfold getVertexCode.
  rewrite assertion_isValueOrRange, H. simpl.
  destruct t; simpl in *; try congruence.
  destruct (num_lt w (item elements 0)); reflexivity.
Qed.

Lemma getVertexCode_rejected (w : num) (t : value) :
  isValueOrRange t = false -> getVertexCode w t = Err InvalidThreshold.
Proof.
  intros H. unfold getVertexCode.
  rewrite assertion_isValueOrRange, H. reflexivity.
Qed.

Lemma classOf_range (w : num) (t : value) : 0 <= classOf w t <= 2.
Proof.
  destruct t; simpl; try lia.
  - destruct (num_ge w n); lia.
  - destruct (num_lt w (item elements 0)); [lia|].
    destruct (num_lt w (item elements 1)); lia.
Qed.

Lemma classOf_scalar_range (w : num) (t : value) :
  isFinite t = true -> 0 <= classOf w t <= 1.
Proof.
  destruct t; simpl; try discriminate. intros _.
  destruct (num_ge w n); lia.
Qed.

Lemma classOf_monotone (t : value) (w1 w2 : num) :
  num_le w1 w2 = true -> classOf w1 t <= classOf w2 t.
Proof.
  intros Hle. destruct t as [| | |n|s|a|]; simpl; try lia.
  - destruct (num_ge w1 n) eqn:E1; [|destruct (num_ge w2 n); lia].
    assert (num_ge w2 n = true) as ->; [|lia].
    apply (num_le_trans n w1 w2); assumption.
  - destruct (num_lt w2 (item a 0)) eqn:E2.
    + rewrite (num_le_lt_trans w1 w2 _ Hle E2). lia.
    + destruct (num_lt w1 (item a 0)).
      * destruct (num_lt w2 (item a 1)); lia.
      * destruct (num_lt w2 (item a 1)) eqn:E3.
        -- rewrite (num_le_lt_trans w1 w2 _ Hle E3). lia.
        -- destruct (num_lt w1 (item a 1)); lia.
Qed.

(** C6. The corner classification is monotonic in the sample: under a valid
    threshold (a finite scalar or a strictly ascending pair) both samples
    of a pair [w1 <= w2] are classified, and the class of [w1] is at most
    the class of [w2]. *)
Theorem getVertexCode_monotone (t : value) (w1 w2 : num) :
  isThresholdSpec t = true ->
  num_le w1 w2 = true ->
  exists c1 c2,
    getVertexCode w1 t = Ok c1 /\ getVertexCode w2 t = Ok c2 /\ c1 <= c2.
Proof.
  intros Ht Hle.
  apply isThresholdSpec_isValueOrRange in Ht.
  exists (classOf w1 t), (classOf w2 t).
  rewrite !getVertexCode_accepted by exact Ht.
  repeat split. apply classOf_monotone, Hle.
Qed.

Lemma getVertexCode_monotone_witness :
  exists c1 c2,
    getVertexCode (num_of_Z 4) (VArray [num_of_Z 3; num_of_Z 8]) = Ok c1
    /\ getVertexCode (num_of_Z 10) (VArray [num_of_Z 3; num_of_Z 8]) = Ok c2
    /\ c1 <= c2.
Proof.
  apply (getVertexCode_monotone (VArray [num_of_Z 3; num_of_Z 8])
           (num_of_Z 4) (num_of_Z 10)); reflexivity.
Defined.

(** ** getCode: the corners *)

Ltac zbools :=
  rewrite ?Z.geb_leb in *;
  repeat match goal with
         | |- context [?a <? ?b] => destruct (Z.ltb_spec a b)
         | |- context [?a <=? ?b] => destruct (Z.leb_spec a b)
         | H : context [?a <? ?b] |- _ => destruct (Z.ltb_spec a b)
         | H : context [?a <=? ?b] |- _ => destruct (Z.leb_spec a b)
         end;
  simpl in *; try reflexivity; try discriminate; try lia.

Lemma classifyCorner_boundary ws i t :
  classifyCorner true ws i t = Ok {| weight := None; class := 0 |}.
Proof. reflexivity. Qed.

Lemma classifyCorner_accepted ws i t :
  isValueOrRange t = true ->
  classifyCorner false ws i t
  = Ok {| weight := Some (item ws i); class := classOf (item ws i) t |}.
Proof.
  intros H. unfold classifyCorner.
  rewrite getVertexCode_accepted by exact H. reflexivity.
Qed.

Lemma classifyCorner_rejected ws i t :
  isValueOrRange t = false ->
  classifyCorner false ws i t = Err InvalidThreshold.
Proof.
  intros H. unfold classifyCorner.
  rewrite getVertexCode_rejected by exact H. reflexivity.
Qed.

(** On a valid address the boundary flags of a block say exactly that its
    corner lies outside the grid. *)
Lemma flags_top opts :
  validAddress opts ->
  (CodeOpts.x opts <? 0) || (CodeOpts.y opts >=? CodeOpts.height opts - 1)
  = negb (inGrid opts (cornerPosition opts Top)).
Proof. unfold validAddress, inGrid. simpl. intros [? ?]. zbools. Qed.

Lemma flags_topRight opts :
  validAddress opts ->
  (CodeOpts.x opts >=? CodeOpts.width opts - 1)
  || (CodeOpts.y opts >=? CodeOpts.height opts - 1)
  = negb (inGrid opts (cornerPosition opts TopRight)).
Proof. unfold validAddress, inGrid. simpl. intros [? ?]. zbools. Qed.

Lemma flags_right opts :
  validAddress opts ->
  (CodeOpts.x opts >=? CodeOpts.width opts - 1) || (CodeOpts.y opts <? 0)
  = negb (inGrid opts (cornerPosition opts Right)).
Proof. unfold validAddress, inGrid. simpl. intros [? ?]. zbools. Qed.

Lemma flags_current opts :
  validAddress opts ->
  (CodeOpts.x opts <? 0) || (CodeOpts.y opts <? 0)
  = negb (inGrid opts (cornerPosition opts Current)).
Proof. unfold validAddress, inGrid. simpl. intros [? ?]. zbools. Qed.

(** A cell is on the boundary exactly when one of its corners is outside. *)
Lemma isBoundary_outside opts :
  validAddress opts ->
  isBoundary opts = true <-> exists k, inGrid opts (cornerPosition opts k) = false.
Proof.
  unfold validAddress, isBoundary. intros [Hx Hy]. split.
  - intros H.
    destruct (inGrid opts (cornerPosition opts Top)) eqn:E1; [|by exists Top].
    destruct (inGrid opts (cornerPosition opts TopRight)) eqn:E2; [|by exists TopRight].
    destruct (inGrid opts (cornerPosition opts Right)) eqn:E3; [|by exists Right].
    exfalso. unfold inGrid in *. simpl in *. zbools.
  - intros [k Hk]. destruct k; unfold inGrid in Hk; simpl in Hk; zbools.
Qed.

Lemma classifyCorner_record opts t k i :
  isValueOrRange t = true ->
  i = snd (cornerPosition opts k) * CodeOpts.width opts + fst (cornerPosition opts k) ->
  classifyCorner (negb (inGrid opts (cornerPosition opts k)))
    (CodeOpts.cellWeights opts) i t
  = Ok (cornerRecord opts t k).
Proof.
  intros Ht ->. unfold cornerRecord.
  destruct (inGrid opts (cornerPosition opts k)); simpl.
  - apply classifyCorner_accepted, Ht.
  - reflexivity.
Qed.

(** With a threshold that passes the assertion, the four blocks build the
    four corner records. *)
Lemma classifyCorners_accepted opts t :
  validAddress opts ->
  isValueOrRange t = true ->
  classifyCorners opts t = Ok (cornerRecords opts t).
Proof.
  intros Ha Ht. unfold classifyCorners.
  rewrite (flags_top _ Ha), (flags_topRight _ Ha), (flags_right _ Ha), (flags_current _ Ha).
  rewrite (classifyCorner_record opts t Top) by (trivial; simpl; lia).
  rewrite (classifyCorner_record opts t TopRight) by (trivial; simpl; lia).
  rewrite (classifyCorner_record opts t Right) by (trivial; simpl; lia).
  rewrite (classifyCorner_record opts t Current) by (trivial; simpl; lia).
  reflexivity.
Qed.

(** On a grid of positive size every cell has a corner inside the grid. *)
Lemma some_corner_inside opts :
  validAddress opts ->
  0 < CodeOpts.width opts -> 0 < CodeOpts.height opts ->
  exists k, inGrid opts (cornerPosition opts k) = true.
Proof.
  unfold validAddress. intros [Hx Hy] Hw Hh.
  destruct (Z.ltb_spec (CodeOpts.x opts) 0), (Z.ltb_spec (CodeOpts.y opts) 0).
  - exists TopRight. unfold inGrid. simpl. zbools.
  - exists Right. unfold inGrid. simpl. zbools.
  - exists Top. unfold inGrid. simpl. zbools.
  - exists Current. unfold inGrid. simpl. zbools.
Qed.

(** With a threshold that fails the assertion, the first block whose
    corner is inside the grid raises InvalidThreshold. *)
Lemma classifyCorners_rejected opts t :
  validAddress opts ->
  0 < CodeOpts.width opts -> 0 < CodeOpts.height opts ->
  isValueOrRange t = false ->
  classifyCorners opts t = Err InvalidThreshold.
Proof.
  intros Ha Hw Hh Ht.
  destruct (some_corner_inside opts Ha Hw Hh) as [k Hk].
  unfold classifyCorners.
  rewrite (flags_top _ Ha), (flags_topRight _ Ha), (flags_right _ Ha), (flags_current _ Ha).
  destruct (inGrid opts (cornerPosition opts Top)) eqn:E1; cbn [negb];
    [rewrite classifyCorner_rejected by exact Ht; reflexivity
    |rewrite classifyCorner_boundary; cbn [bind]].
  destruct (inGrid opts (cornerPosition opts TopRight)) eqn:E2; cbn [negb];
    [rewrite classifyCorner_rejected by exact Ht; reflexivity
    |rewrite classifyCorner_boundary; cbn [bind]].
  destruct (inGrid opts (cornerPosition opts Right)) eqn:E3; cbn [negb];
    [rewrite classifyCorner_rejected by exact Ht; reflexivity
    |rewrite classifyCorner_boundary; cbn [bind]].
  destruct (inGrid opts (cornerPosition opts Current)) eqn:E4; cbn [negb];
    [rewrite classifyCorner_rejected by exact Ht; reflexivity
    |rewrite classifyCorner_boundary; cbn [bind]].
  destruct k; congruence.
Qed.

(** ** getCode: packing *)

Lemma class_cornerRecord_range opts t k :
  0 <= class (cornerRecord opts t k) <= 2.
Proof.
  unfold cornerRecord. destruct (inGrid opts (cornerPosition opts k)); simpl.
  - apply classOf_range.
  - lia.
Qed.

Lemma class_cornerRecord_scalar opts t k :
  isFinite t = true -> 0 <= class (cornerRecord opts t k) <= 1.
Proof.
  intros Ht. unfold cornerRecord.
  destruct (inGrid opts (cornerPosition opts k)); simpl.
  - apply classOf_scalar_range, Ht.
  - lia.
Qed.

Lemma packLines_nonneg a b c d :
  0 <= a -> 0 <= b -> 0 <= c -> 0 <= d -> 0 <= packLines a b c d.
Proof.
  intros. unfold packLines.
  rewrite !Z.lor_nonneg, !Z.shiftl_nonneg. auto.
Qed.

Lemma packBands_nonneg a b c d :
  0 <= a -> 0 <= b -> 0 <= c -> 0 <= d -> 0 <= packBands a b c d.
Proof.
  intros. unfold packBands.
  rewrite !Z.lor_nonneg, !Z.shiftl_nonneg. auto.
Qed.

Ltac small_cases :=
  repeat match goal with
         | H : 0 <= ?a <= 1 |- _ =>
             assert (a = 0 \/ a = 1) as [-> | ->] by lia; clear H
         | H : 0 <= ?a <= 2 |- _ =>
             assert (a = 0 \/ a = 1 \/ a = 2) as [-> | [-> | ->]] by lia; clear H
         end.

(** An iso-line code of four classes in 0..1 lies in 0..15 and its four
    bits are the classes. *)
Lemma packLines_slots a b c d :
  0 <= a <= 1 -> 0 <= b <= 1 -> 0 <= c <= 1 -> 0 <= d <= 1 ->
  0 <= packLines a b c d <= 15 /\ lineSlots (packLines a b c d) = [a; b; c; d].
Proof. intros. small_cases; vm_compute; intuition congruence. Qed.

(** An iso-band code of four classes in 0..2 fits in eight bits and its
    four 2-bit fields are the classes. *)
Lemma packBands_slots a b c d :
  0 <= a <= 2 -> 0 <= b <= 2 -> 0 <= c <= 2 -> 0 <= d <= 2 ->
  0 <= packBands a b c d <= 255 /\ bandSlots (packBands a b c d) = [a; b; c; d].
Proof. intros. small_cases; vm_compute; intuition congruence. Qed.

Lemma packCorners_nonneg opts t :
  0 <= packCorners t (cornerRecords opts t).
Proof.
  unfold packCorners, cornerRecords. simpl.
  pose proof (class_cornerRecord_range opts t Top).
  pose proof (class_cornerRecord_range opts t TopRight).
  pose proof (class_cornerRecord_range opts t Right).
  pose proof (class_cornerRecord_range opts t Current).
  destruct (isArray t); [apply packBands_nonneg | apply packLines_nonneg]; lia.
Qed.

(** ** getCode: outcome under an accepted threshold *)

Lemma getCodeWith_accepted opts t :
  validAddress opts ->
  isValueOrRange t = true ->
  getCodeWith opts t
  = if isBoundary opts then Ok (packCorners t (cornerRecords opts t), 0)
    else if allWeightsFinite (cornerRecords opts t)
         then Ok (packCorners t (cornerRecords opts t),
                  classOf (meanWeight (cornerRecords opts t)) t)
         else Err NonFiniteWeight.
Proof.
  intros Ha Ht. unfold getCodeWith.
  assert ((CodeOpts.x opts >=? -1) && (CodeOpts.x opts <? CodeOpts.width opts) = true) as ->.
  { destruct Ha as [? ?]. zbools. }
  assert ((CodeOpts.y opts >=? -1) && (CodeOpts.y opts <? CodeOpts.height opts) = true) as ->.
  { destruct Ha as [? ?]. zbools. }
  cbn [assert bind].
  rewrite (classifyCorners_accepted _ _ Ha Ht). cbn [bind].
  pose proof (packCorners_nonneg opts t) as Hnn.
  assert ((if isArray t
           then packBands (class (top (cornerRecords opts t)))
                  (class (topRight (cornerRecords opts t)))
                  (class (right (cornerRecords opts t)))
                  (class (current (cornerRecords opts t)))
           else if isFinite t
                then packLines (class (top (cornerRecords opts t)))
                       (class (topRight (cornerRecords opts t)))
                       (class (right (cornerRecords opts t)))
                       (class (current (cornerRecords opts t)))
                else -1)
          = packCorners t (cornerRecords opts t)) as Hcode.
  { unfold packCorners. destruct t as [| | |n|s|a|]; try discriminate; [|reflexivity].
    simpl in Ht. simpl. rewrite Ht. reflexivity. }
  change (Z.lor (Z.lor (Z.lor (Z.shiftl ?a 3) (Z.shiftl ?b 2)) (Z.shiftl ?c 1)) ?d)
    with (packLines a b c d).
  change (Z.lor (Z.lor (Z.lor (Z.shiftl ?a 6) (Z.shiftl ?b 4)) (Z.shiftl ?c 2)) ?d)
    with (packBands a b c d).
  rewrite Hcode.
  assert ((packCorners t (cornerRecords opts t) >=? 0) = true) as ->.
  { zbools. }
  cbn [assert bind].
  destruct (isBoundary opts); cbn [negb bind]; [reflexivity|].
  destruct (allWeightsFinite (cornerRecords opts t)); cbn [assert bind]; [|reflexivity].
  rewrite getVertexCode_accepted by exact Ht. reflexivity.
Qed.

Lemma getCodeWith_rejected opts t :
  validAddress opts ->
  0 < CodeOpts.width opts -> 0 < CodeOpts.height opts ->
  isValueOrRange t = false ->
  getCodeWith opts t = Err InvalidThreshold.
Proof.
  intros Ha Hw Hh Ht. unfold getCodeWith.
  assert ((CodeOpts.x opts >=? -1) && (CodeOpts.x opts <? CodeOpts.width opts) = true) as ->.
  { destruct Ha as [? ?]. zbools. }
  assert ((CodeOpts.y opts >=? -1) && (CodeOpts.y opts <? CodeOpts.height opts) = true) as ->.
  { destruct Ha as [? ?]. zbools. }
  cbn [assert bind].
  rewrite (classifyCorners_rejected _ _ Ha Hw Hh Ht). reflexivity.
Qed.

(** ** Samples of a ScalarField *)

Lemma sampleAt_finite opts p :
  ScalarField opts ->
  inGrid opts p = true ->
  num_isFinite (sampleAt opts p) = true.
Proof.
  intros (Hw & Hh & Hlen & Hfin) Hin.
  unfold inGrid in Hin. unfold sampleAt, item.
  destruct p as [cx cy]. simpl in *.
  assert (0 <= cx < CodeOpts.width opts /\ 0 <= cy < CodeOpts.height opts) as [Hx Hy].
  { zbools. }
  assert (0 <= cy * CodeOpts.width opts + cx < CodeOpts.width opts * CodeOpts.height opts)
    as Hi by nia.
  destruct (Z.ltb_spec (cy * CodeOpts.width opts + cx) 0); [lia|].
  destruct (lookup_lt_is_Some_2 (CodeOpts.cellWeights opts)
              (Z.to_nat (cy * CodeOpts.width opts + cx))) as [w Hw'].
  { lia. }
  rewrite Hw'. simpl.
  rewrite Forall_lookup in Hfin. exact (Hfin _ _ Hw').
Qed.

Lemma interior_weights_finite opts t :
  validAddress opts ->
  ScalarField opts ->
  isBoundary opts = false ->
  allWeightsFinite (cornerRecords opts t) = true.
Proof.
  intros Ha Hf Hb.
  assert (forall k, inGrid opts (cornerPosition opts k) = true) as Hin.
  { intros k. destruct (inGrid opts (cornerPosition opts k)) eqn:E; [reflexivity|].
    assert (isBoundary opts = true); [|congruence].
    apply isBoundary_outside; eauto. }
  unfold allWeightsFinite, weightIsFinite, cornerRecords, cornerRecord.
  cbn [top topRight right current]. rewrite !Hin. cbn [weight].
  rewrite !sampleAt_finite by auto. reflexivity.
Qed.

(** On a ScalarField, a valid address and an accepted threshold,
    [getCode] returns. *)
Lemma getCodeWith_total opts t :
  ScalarField opts ->
  validAddress opts ->
  isValueOrRange t = true ->
  getCodeWith opts t
  = Ok (packCorners t (cornerRecords opts t),
        if isBoundary opts then 0 else classOf (meanWeight (cornerRecords opts t)) t).
Proof.
  intros Hf Ha Ht. rewrite getCodeWith_accepted by assumption.
  destruct (isBoundary opts) eqn:Hb; [reflexivity|].
  rewrite interior_weights_finite by assumption. reflexivity.
Qed.

Lemma getCode_unfold opts :
  getCode opts = (fst (selectThreshold opts), getCodeWith opts (snd (selectThreshold opts))).
Proof. unfold getCode. destruct (selectThreshold opts). reflexivity. Qed.

Lemma getCodeWith_withThreshold opts t' t :
  getCodeWith (withThreshold opts t') t = getCodeWith opts t.
Proof. reflexivity. Qed.

Lemma cornerHasClass_record opts t k :
  isValueOrRange t = true ->
  cornerHasClass opts t k (class (cornerRecord opts t k)).
Proof.
  intros Ht. unfold cornerHasClass, cornerRecord.
  destruct (inGrid opts (cornerPosition opts k)); simpl.
  - apply getVertexCode_accepted, Ht.
  - reflexivity.
Qed.

(** ** The claims about getCode *)

(** C1 (as stated, refuted).  On the 2x2 grid [[0, 0, 0, 10]] with
    threshold 5, the cell at (1, 1) is not the cell (0, 0) and still has
    exactly one corner of class 1: its own corner, the sample 10. *)
Lemma scenario1_cell_1_1_has_class1_corner :
  snd (getCode (scenarioCell (VNum (num_of_Z 5)) 1 1)) = Ok (1, 0)
  /\ class1Corners 1 = 1%nat
  /\ (1, 1) <> (0, 0).
Proof. repeat split; try reflexivity. discriminate. Qed.

(** C1 (amended).  On the 2x2 grid [[0, 0, 0, 10]] with threshold 5, each
    of the nine cell addresses of [[-1, 1] x [-1, 1]] is classified; the four
    cells that have the sample (1, 1) as a corner, (0,0), (1,0), (0,1) and
    (1,1), get the codes 4, 8, 2 and 1, each with exactly one corner of
    class 1; the five cells with [x = -1] or [y = -1] get code 0, with no
    corner of class 1. *)
Theorem scenario1_codes (x y : Z) :
  -1 <= x <= 1 ->
  -1 <= y <= 1 ->
  exists code meanCode,
    snd (getCode (scenarioCell (VNum (num_of_Z 5)) x y)) = Ok (code, meanCode)
    /\ code = (if (x <? 0) || (y <? 0) then 0
               else if x =? 0 then (if y =? 0 then 4 else 2)
               else (if y =? 0 then 8 else 1))
    /\ class1Corners code = (if (x <? 0) || (y <? 0) then 0%nat else 1%nat).
Proof.
  intros Hx Hy.
  assert (x = -1 \/ x = 0 \/ x = 1) as [-> | [-> | ->]] by lia;
    assert (y = -1 \/ y = 0 \/ y = 1) as [-> | [-> | ->]] by lia;
    eexists _, _; (split; [reflexivity|]); split; reflexivity.
Qed.

Lemma scenario1_codes_witness :
  exists code meanCode,
    snd (getCode (scenarioCell (VNum (num_of_Z 5)) 1 0)) = Ok (code, meanCode)
    /\ code = 8
    /\ class1Corners code = 1%nat.
Proof. apply (scenario1_codes 1 0); lia. Defined.

(** C2 (as stated, refuted).  The descending range [[8, 3]] is not a
    ThresholdSpec, yet the cell (0, 0) of the scenario grid is classified
    with it: no InvalidThreshold. *)
Lemma descending_range_is_classified :
  validAddress (scenarioCell (VArray [num_of_Z 8; num_of_Z 3]) 0 0)
  /\ isThresholdSpec
       (snd (selectThreshold (scenarioCell (VArray [num_of_Z 8; num_of_Z 3]) 0 0)))
     = false
  /\ snd (getCode (scenarioCell (VArray [num_of_Z 8; num_of_Z 3]) 0 0)) = Ok (32, 0).
Proof. unfold validAddress. simpl. repeat split; lia. Qed.

(** C2 (amended).  On a grid of positive size and a valid cell address,
    [getCode] fails with InvalidThreshold exactly when the threshold is
    neither a finite number nor an array of more than one element (the
    order of the elements is not examined); the check is the first thing
    [getVertexCode] does, so it fails whatever the sample is, before any
    sample is compared with the threshold. *)
Theorem getCode_InvalidThreshold_iff (opts : CodeOpts.t) :
  0 < CodeOpts.width opts ->
  0 < CodeOpts.height opts ->
  validAddress opts ->
  (snd (getCode opts) = Err InvalidThreshold
   <-> isValueOrRange (snd (selectThreshold opts)) = false)
  /\ (isValueOrRange (snd (selectThreshold opts)) = false ->
      forall w, getVertexCode w (snd (selectThreshold opts)) = Err InvalidThreshold).
Proof.
  intros Hw Hh Ha. rewrite getCode_unfold. cbn [snd].
  set (t := snd (selectThreshold opts)). split.
  - split.
    + destruct (isValueOrRange t) eqn:E; [|reflexivity].
      rewrite getCodeWith_accepted by assumption.
      destruct (isBoundary opts); [discriminate|].
      destruct (allWeightsFinite _); discriminate.
    + intros E. apply getCodeWith_rejected; assumption.
  - intros E w. apply getVertexCode_rejected, E.
Qed.

Lemma getCode_InvalidThreshold_iff_witness :
  (snd (getCode (scenarioCell (VArray [num_of_Z 8]) 0 0)) = Err InvalidThreshold
   <-> isValueOrRange (snd (selectThreshold (scenarioCell (VArray [num_of_Z 8]) 0 0)))
       = false)
  /\ (isValueOrRange (snd (selectThreshold (scenarioCell (VArray [num_of_Z 8]) 0 0)))
      = false ->
      forall w,
        getVertexCode w (snd (selectThreshold (scenarioCell (VArray [num_of_Z 8]) 0 0)))
        = Err InvalidThreshold).
Proof.
  apply (getCode_InvalidThreshold_iff (scenarioCell (VArray [num_of_Z 8]) 0 0)).
  - simpl. lia.
  - simpl. lia.
  - unfold validAddress. simpl. lia.
Defined.

(** C3.  On a ScalarField, a valid cell address and a valid threshold,
    [getCode] returns a code that packs the classes of the four corners in
    the order top, top-right, right, current: shifts 3, 2, 1, 0 under a
    scalar threshold, shifts 6, 4, 2, 0 under a range. *)
Theorem getCode_packs_corner_classes (opts : CodeOpts.t) :
  ScalarField opts ->
  validAddress opts ->
  isThresholdSpec (snd (selectThreshold opts)) = true ->
  exists code meanCode top topRight right current,
    snd (getCode opts) = Ok (code, meanCode)
    /\ cornerHasClass opts (snd (selectThreshold opts)) Top top
    /\ cornerHasClass opts (snd (selectThreshold opts)) TopRight topRight
    /\ cornerHasClass opts (snd (selectThreshold opts)) Right right
    /\ cornerHasClass opts (snd (selectThreshold opts)) Current current
    /\ (isFinite (snd (selectThreshold opts)) = true ->
        code = Z.lor (Z.lor (Z.lor (Z.shiftl top 3) (Z.shiftl topRight 2))
                            (Z.shiftl right 1)) current)
    /\ (isArray (snd (selectThreshold opts)) = true ->
        code = Z.lor (Z.lor (Z.lor (Z.shiftl top 6) (Z.shiftl topRight 4))
                            (Z.shiftl right 2)) current).
Proof.
  intros Hf Ha Ht. rewrite getCode_unfold. cbn [snd].
  set (t := snd (selectThreshold opts)) in *.
  apply isThresholdSpec_isValueOrRange in Ht.
  rewrite getCodeWith_total by assumption.
  eexists _, _, (class (cornerRecord opts t Top)), (class (cornerRecord opts t TopRight)),
    (class (cornerRecord opts t Right)), (class (cornerRecord opts t Current)).
  split; [reflexivity|].
  repeat (split; [apply cornerHasClass_record, Ht|]).
  unfold packCorners. split; intros Hm.
  - destruct t; try discriminate. reflexivity.
  - rewrite Hm. reflexivity.
Qed.

Lemma getCode_packs_corner_classes_witness :
  exists code meanCode top topRight right current,
    snd (getCode (scenarioCell (VNum (num_of_Z 5)) 0 0)) = Ok (code, meanCode)
    /\ cornerHasClass (scenarioCell (VNum (num_of_Z 5)) 0 0) (VNum (num_of_Z 5)) Top top
    /\ cornerHasClass (scenarioCell (VNum (num_of_Z 5)) 0 0) (VNum (num_of_Z 5))
         TopRight topRight
    /\ cornerHasClass (scenarioCell (VNum (num_of_Z 5)) 0 0) (VNum (num_of_Z 5)) Right right
    /\ cornerHasClass (scenarioCell (VNum (num_of_Z 5)) 0 0) (VNum (num_of_Z 5))
         Current current
    /\ (true = true ->
        code = Z.lor (Z.lor (Z.lor (Z.shiftl top 3) (Z.shiftl topRight 2))
                            (Z.shiftl right 1)) current)
    /\ (false = true ->
        code = Z.lor (Z.lor (Z.lor (Z.shiftl top 6) (Z.shiftl topRight 4))
                            (Z.shiftl right 2)) current).
Proof.
  apply (getCode_packs_corner_classes (scenarioCell (VNum (num_of_Z 5)) 0 0)).
  - unfold ScalarField. simpl. repeat split; try lia.
    repeat constructor.
  - unfold validAddress. simpl. lia.
  - reflexivity.
Defined.

Lemma cornerOf_cornerRecords opts t k :
  cornerOf (cornerRecords opts t) k = cornerRecord opts t k.
Proof. destruct k; reflexivity. Qed.

(** C4.  On a valid cell address with some corner outside
    [[0, width) x [0, height)] and a valid threshold, the corner pass of
    [getCode] leaves every outside corner without a sample (nothing is
    read for it) and with class 0, and [getCode] returns the code packed
    from that pass together with the placeholder mean code 0. *)
Theorem getCode_ghost_corners (opts : CodeOpts.t) :
  validAddress opts ->
  isThresholdSpec (snd (selectThreshold opts)) = true ->
  (exists k, inGrid opts (cornerPosition opts k) = false) ->
  exists cs,
    classifyCorners opts (snd (selectThreshold opts)) = Ok cs
    /\ snd (getCode opts) = Ok (packCorners (snd (selectThreshold opts)) cs, 0)
    /\ forall k, inGrid opts (cornerPosition opts k) = false ->
                 weight (cornerOf cs k) = None /\ class (cornerOf cs k) = 0.
Proof.
  intros Ha Ht Hout. rewrite getCode_unfold. cbn [snd].
  set (t := snd (selectThreshold opts)) in *.
  apply isThresholdSpec_isValueOrRange in Ht.
  exists (cornerRecords opts t).
  split; [apply classifyCorners_accepted; assumption|].
  split.
  - rewrite getCodeWith_accepted by assumption.
    apply isBoundary_outside in Hout; [|assumption].
    rewrite Hout. reflexivity.
  - intros k Hk. rewrite cornerOf_cornerRecords. unfold cornerRecord.
    rewrite Hk. split; reflexivity.
Qed.

Lemma getCode_ghost_corners_witness :
  exists cs,
    classifyCorners (scenarioCell (VNum (num_of_Z 5)) 1 1) (VNum (num_of_Z 5)) = Ok cs
    /\ snd (getCode (scenarioCell (VNum (num_of_Z 5)) 1 1))
       = Ok (packCorners (VNum (num_of_Z 5)) cs, 0)
    /\ forall k,
         inGrid (scenarioCell (VNum (num_of_Z 5)) 1 1)
           (cornerPosition (scenarioCell (VNum (num_of_Z 5)) 1 1) k) = false ->
         weight (cornerOf cs k) = None /\ class (cornerOf cs k) = 0.
Proof.
  apply (getCode_ghost_corners (scenarioCell (VNum (num_of_Z 5)) 1 1)).
  - unfold validAddress. simpl. lia.
  - reflexivity.
  - exists Top. reflexivity.
Defined.

(** C5.  On a ScalarField, a valid cell address and a valid threshold,
    [getCode] returns a code that, under a scalar threshold, lies in
    [[0, 15]], and, under a range threshold, is made of four 2-bit fields at
    bit positions 6, 4, 2, 0, each holding 0, 1 or 2. *)
Theorem getCode_code_shape (opts : CodeOpts.t) :
  ScalarField opts ->
  validAddress opts ->
  isThresholdSpec (snd (selectThreshold opts)) = true ->
  exists code meanCode,
    snd (getCode opts) = Ok (code, meanCode)
    /\ (isFinite (snd (selectThreshold opts)) = true -> 0 <= code <= 15)
    /\ (isArray (snd (selectThreshold opts)) = true ->
        exists a b c d,
          0 <= a <= 2 /\ 0 <= b <= 2 /\ 0 <= c <= 2 /\ 0 <= d <= 2
          /\ code = Z.lor (Z.lor (Z.lor (Z.shiftl a 6) (Z.shiftl b 4)) (Z.shiftl c 2)) d
          /\ bandSlots code = [a; b; c; d]
          /\ 0 <= code <= 255).
Proof.
  intros Hf Ha Ht. rewrite getCode_unfold. cbn [snd].
  set (t := snd (selectThreshold opts)) in *.
  apply isThresholdSpec_isValueOrRange in Ht.
  rewrite getCodeWith_total by assumption.
  eexists _, _. split; [reflexivity|].
  unfold packCorners, cornerRecords. cbn [top topRight right current].
  split; intros Hm.
  - assert (isArray t = false) as -> by (destruct t; try discriminate; reflexivity).
    apply packLines_slots; apply class_cornerRecord_scalar, Hm.
  - rewrite Hm.
    pose proof (class_cornerRecord_range opts t Top) as H1.
    pose proof (class_cornerRecord_range opts t TopRight) as H2.
    pose proof (class_cornerRecord_range opts t Right) as H3.
    pose proof (class_cornerRecord_range opts t Current) as H4.
    destruct (packBands_slots _ _ _ _ H1 H2 H3 H4) as [Hr Hs].
    exists (class (cornerRecord opts t Top)), (class (cornerRecord opts t TopRight)),
      (class (cornerRecord opts t Right)), (class (cornerRecord opts t Current)).
    split; [exact H1|]. split; [exact H2|]. split; [exact H3|]. split; [exact H4|].
    split; [reflexivity|]. split; [exact Hs | exact Hr].
Qed.

Lemma getCode_code_shape_witness :
  exists code meanCode,
    snd (getCode (scenarioCell (VArray [num_of_Z 3; num_of_Z 8]) 1 0)) = Ok (code, meanCode)
    /\ (false = true -> 0 <= code <= 15)
    /\ (true = true ->
        exists a b c d,
          0 <= a <= 2 /\ 0 <= b <= 2 /\ 0 <= c <= 2 /\ 0 <= d <= 2
          /\ code = Z.lor (Z.lor (Z.lor (Z.shiftl a 6) (Z.shiftl b 4)) (Z.shiftl c 2)) d
          /\ bandSlots code = [a; b; c; d]
          /\ 0 <= code <= 255).
Proof.
  apply (getCode_code_shape (scenarioCell (VArray [num_of_Z 3; num_of_Z 8]) 1 0)).
  - unfold ScalarField. simpl. repeat split; try lia.
    repeat constructor.
  - unfold validAddress. simpl. lia.
  - reflexivity.
Defined.

(** C9.  A truthy [thresholdValue] replaces [threshold] for the whole
    classification: the call returns what the call with that value as
    [threshold] and no [thresholdValue] returns, and the only trace is the
    deprecation message.  A falsy [thresholdValue] is ignored and
    [threshold] is used; the number 0 is falsy, so threshold 0 cannot be
    passed through [thresholdValue]. *)
Theorem getCode_thresholdValue (opts : CodeOpts.t) :
  getCode opts
  = (if truthy (CodeOpts.thresholdValue opts)
     then ([Deprecated "thresholdValue" "threshold"],
           snd (getCode (withThreshold opts (CodeOpts.thresholdValue opts))))
     else getCode (withThreshold opts (CodeOpts.threshold opts)))
  /\ truthy (VNum (num_of_Z 0)) = false.
Proof.
  split; [|reflexivity].
  unfold getCode, selectThreshold. cbn [withThreshold CodeOpts.thresholdValue
    CodeOpts.threshold truthy].
  destruct (truthy (CodeOpts.thresholdValue opts)); reflexivity.
Qed.

(** ** getVertices *)

Section VertexProperties.

Variable ISOLINES_CODE_OFFSET_MAP : gmap Z tableEntry.
Variable ISOBANDS_CODE_OFFSET_MAP : gmap Z tableEntry.

Lemma getVertices_lines (opts : VertexOpts.t) :
  strictEqZ (typeOrDefault (VertexOpts.type opts)) ISO_LINES = true ->
  getVertices ISOLINES_CODE_OFFSET_MAP ISOBANDS_CODE_OFFSET_MAP opts
  = match lookupTemplates ISOLINES_CODE_OFFSET_MAP
            (VertexOpts.code opts) (VertexOpts.meanCode opts) with
    | None => Err UnmappedCode
    | Some ts =>
        if (VertexOpts.x opts >=? -1) && (VertexOpts.y opts >=? -1)
        then Ok (Vertices (flat_map (map (worldPoint opts)) ts))
        else Err OutOfRange
    end.
Proof.
  intros H. unfold getVertices, lookupTemplates. rewrite H. cbn [bind].
  destruct (ISOLINES_CODE_OFFSET_MAP !! VertexOpts.code opts) as [[ts|m]|];
    cbn [bind]; [|destruct (m !! VertexOpts.meanCode opts) as [ts|]; cbn [bind]|];
    try reflexivity;
    destruct (VertexOpts.x opts >=? -1), (VertexOpts.y opts >=? -1);
    reflexivity.
Qed.

Lemma getVertices_bands (opts : VertexOpts.t) :
  strictEqZ (typeOrDefault (VertexOpts.type opts)) ISO_LINES = false ->
  strictEqZ (typeOrDefault (VertexOpts.type opts)) ISO_BANDS = true ->
  getVertices ISOLINES_CODE_OFFSET_MAP ISOBANDS_CODE_OFFSET_MAP opts
  = match lookupTemplates ISOBANDS_CODE_OFFSET_MAP
            (VertexOpts.code opts) (VertexOpts.meanCode opts) with
    | None => Err UnmappedCode
    | Some ts =>
        if (VertexOpts.x opts >=? -1) && (VertexOpts.y opts >=? -1)
        then Ok (Polygons (map (map (worldPoint opts)) ts))
        else Err OutOfRange
    end.
Proof.
  intros H1 H2. unfold getVertices, lookupTemplates. rewrite H1, H2. cbn [bind].
  destruct (ISOBANDS_CODE_OFFSET_MAP !! VertexOpts.code opts) as [[ts|m]|];
    cbn [bind]; [|destruct (m !! VertexOpts.meanCode opts) as [ts|]; cbn [bind]|];
    try reflexivity;
    destruct (VertexOpts.x opts >=? -1), (VertexOpts.y opts >=? -1);
    reflexivity.
Qed.

Lemma getVertices_unsupported (opts : VertexOpts.t) :
  strictEqZ (typeOrDefault (VertexOpts.type opts)) ISO_LINES = false ->
  strictEqZ (typeOrDefault (VertexOpts.type opts)) ISO_BANDS = false ->
  getVertices ISOLINES_CODE_OFFSET_MAP ISOBANDS_CODE_OFFSET_MAP opts = Err UnsupportedType.
Proof.
  intros H1 H2. unfold getVertices. rewrite H1, H2. reflexivity.
Qed.

(** C7.  Whenever [getVertices] succeeds, its result is the image of the
    templates selected for the code: every emitted point is
    [worldPoint] of its offset [(ox, oy)], that is
    [(refX + ox * cellSize.x, refY + oy * cellSize.y, vz)] with
    [refX = origin.x + (x + 1) * cellSize.x],
    [refY = origin.y + (y + 1) * cellSize.y] and
    [vz = zIndex * Z_OFFSET * zOffsetScale], where [zIndex] and
    [zOffsetScale] are 0 and 1 when no layer depth is supplied.  For
    ISO_LINES the points of all segments come in one flat sequence, for
    ISO_BANDS one ring per template. *)
Theorem getVertices_world_points (opts : VertexOpts.t) (g : geometry) :
  getVertices ISOLINES_CODE_OFFSET_MAP ISOBANDS_CODE_OFFSET_MAP opts = Ok g ->
  (VertexOpts.thresholdData opts = None ->
   layerDepth opts = (num_of_Z 0, num_of_Z 1))
  /\ exists ts : templates,
      (strictEqZ (typeOrDefault (VertexOpts.type opts)) ISO_LINES = true
       /\ lookupTemplates ISOLINES_CODE_OFFSET_MAP
            (VertexOpts.code opts) (VertexOpts.meanCode opts) = Some ts
       /\ g = Vertices (flat_map (map (worldPoint opts)) ts))
      \/ (strictEqZ (typeOrDefault (VertexOpts.type opts)) ISO_BANDS = true
          /\ lookupTemplates ISOBANDS_CODE_OFFSET_MAP
               (VertexOpts.code opts) (VertexOpts.meanCode opts) = Some ts
          /\ g = Polygons (map (map (worldPoint opts)) ts)).
Proof.
  intros Hg. split.
  { intros Hd. unfold layerDepth. rewrite Hd. reflexivity. }
  destruct (strictEqZ (typeOrDefault (VertexOpts.type opts)) ISO_LINES) eqn:E1.
  - rewrite getVertices_lines in Hg by exact E1.
    destruct (lookupTemplates ISOLINES_CODE_OFFSET_MAP _ _) as [ts|]; [|discriminate].
    destruct (_ && _); [|discriminate].
    injection Hg as <-. exists ts. left. repeat split.
  - destruct (strictEqZ (typeOrDefault (VertexOpts.type opts)) ISO_BANDS) eqn:E2.
    + rewrite getVertices_bands in Hg by assumption.
      destruct (lookupTemplates ISOBANDS_CODE_OFFSET_MAP _ _) as [ts|]; [|discriminate].
      destruct (_ && _); [|discriminate].
      injection Hg as <-. exists ts. right. repeat split.
    + rewrite getVertices_unsupported in Hg by assumption. discriminate.
Qed.

(** C8 (amended).  When [type] is given (not [undefined]) and is neither
    ISO_LINES nor ISO_BANDS, [getVertices] fails with UnsupportedType,
    whatever the other options are, and returns no geometry. *)
Theorem getVertices_UnsupportedType (opts : VertexOpts.t) :
  VertexOpts.type opts <> VUndefined ->
  strictEqZ (VertexOpts.type opts) ISO_LINES = false ->
  strictEqZ (VertexOpts.type opts) ISO_BANDS = false ->
  getVertices ISOLINES_CODE_OFFSET_MAP ISOBANDS_CODE_OFFSET_MAP opts = Err UnsupportedType.
Proof.
  intros Hu H1 H2. apply getVertices_unsupported;
    destruct (VertexOpts.type opts); simpl in *; congruence.
Qed.

(** C10.  With [type] omitted ([undefined]) [getVertices] behaves as
    with [type = ISO_LINES]: it never fails with UnsupportedType, and
    when the iso-line table has templates for the code (and the address
    is not below -1) it returns their flat sequence of segment end
    points. *)
Theorem getVertices_default_type (opts : VertexOpts.t) :
  VertexOpts.type opts = VUndefined ->
  getVertices ISOLINES_CODE_OFFSET_MAP ISOBANDS_CODE_OFFSET_MAP opts
  = getVertices ISOLINES_CODE_OFFSET_MAP ISOBANDS_CODE_OFFSET_MAP (withType opts (VNum (num_of_Z ISO_LINES)))
  /\ getVertices ISOLINES_CODE_OFFSET_MAP ISOBANDS_CODE_OFFSET_MAP opts <> Err UnsupportedType
  /\ forall ts,
      lookupTemplates ISOLINES_CODE_OFFSET_MAP
        (VertexOpts.code opts) (VertexOpts.meanCode opts) = Some ts ->
      -1 <= VertexOpts.x opts ->
      -1 <= VertexOpts.y opts ->
      getVertices ISOLINES_CODE_OFFSET_MAP ISOBANDS_CODE_OFFSET_MAP opts = Ok (Vertices (flat_map (map (worldPoint opts)) ts)).
Proof.
  intros Hty.
  assert (strictEqZ (typeOrDefault (VertexOpts.type opts)) ISO_LINES = true) as E
    by (rewrite Hty; reflexivity).
  split; [|split].
  - unfold getVertices. rewrite Hty. reflexivity.
  - rewrite getVertices_lines by exact E.
    destruct (lookupTemplates _ _ _); [|discriminate].
    destruct (_ && _); discriminate.
  - intros ts Hts Hx Hy. rewrite getVertices_lines by exact E. rewrite Hts.
    assert ((VertexOpts.x opts >=? -1) && (VertexOpts.y opts >=? -1) = true) as ->
      by zbools.
    reflexivity.
Qed.

End VertexProperties.

Lemma getVertices_world_points_witness :
  (VertexOpts.thresholdData (sampleVertexOpts (VNum (num_of_Z 2)) 32 0) = None ->
   layerDepth (sampleVertexOpts (VNum (num_of_Z 2)) 32 0) = (num_of_Z 0, num_of_Z 1))
  /\ exists ts : templates,
      (strictEqZ (typeOrDefault (VNum (num_of_Z 2))) ISO_LINES = true
       /\ lookupTemplates sampleLinesTable 32 0 = Some ts
       /\ Polygons [[ [Fin (210 # 2); Fin 220; Fin (0 # 1000)];
                      [Fin 110; Fin 220; Fin (0 # 1000)];
                      [Fin 110; Fin (420 # 2); Fin (0 # 1000)] ]]
          = Vertices (flat_map (map (worldPoint (sampleVertexOpts (VNum (num_of_Z 2)) 32 0))) ts))
      \/ (strictEqZ (typeOrDefault (VNum (num_of_Z 2))) ISO_BANDS = true
          /\ lookupTemplates sampleBandsTable 32 0 = Some ts
          /\ Polygons [[ [Fin (210 # 2); Fin 220; Fin (0 # 1000)];
                         [Fin 110; Fin 220; Fin (0 # 1000)];
                         [Fin 110; Fin (420 # 2); Fin (0 # 1000)] ]]
             = Polygons (map (map (worldPoint (sampleVertexOpts (VNum (num_of_Z 2)) 32 0))) ts)).
Proof.
  apply (getVertices_world_points sampleLinesTable sampleBandsTable
           (sampleVertexOpts (VNum (num_of_Z 2)) 32 0)).
  vm_compute. reflexivity.
Defined.

(** C8 (as stated, refuted).  [undefined] is neither ISO_LINES nor
    ISO_BANDS, yet a call whose [type] is [undefined] returns geometry. *)
Lemma getVertices_undefined_type_returns :
  strictEqZ VUndefined ISO_LINES = false
  /\ strictEqZ VUndefined ISO_BANDS = false
  /\ getVertices sampleLinesTable sampleBandsTable (sampleVertexOpts VUndefined 4 0)
     = Ok (Vertices [ [Fin (210 # 2); Fin 220; Fin (0 # 1000)];
                      [Fin 110; Fin (420 # 2); Fin (0 # 1000)] ]).
Proof. repeat split; vm_compute; reflexivity. Qed.

Lemma getVertices_UnsupportedType_witness :
  getVertices sampleLinesTable sampleBandsTable (sampleVertexOpts (VNum (num_of_Z 3)) 4 0)
  = Err UnsupportedType.
Proof.
  apply (getVertices_UnsupportedType sampleLinesTable sampleBandsTable
           (sampleVertexOpts (VNum (num_of_Z 3)) 4 0)).
  - discriminate.
  - reflexivity.
  - reflexivity.
Defined.

Lemma getVertices_default_type_witness :
  getVertices sampleLinesTable sampleBandsTable (sampleVertexOpts VUndefined 5 1)
  = getVertices sampleLinesTable sampleBandsTable
      (withType (sampleVertexOpts VUndefined 5 1) (VNum (num_of_Z ISO_LINES)))
  /\ getVertices sampleLinesTable sampleBandsTable (sampleVertexOpts VUndefined 5 1)
     <> Err UnsupportedType
  /\ forall ts,
      lookupTemplates sampleLinesTable 5 1 = Some ts ->
      -1 <= 0 ->
      -1 <= 0 ->
      getVertices sampleLinesTable sampleBandsTable (sampleVertexOpts VUndefined 5 1)
      = Ok (Vertices (flat_map (map (worldPoint (sampleVertexOpts VUndefined 5 1))) ts)).
Proof.
  apply (getVertices_default_type sampleLinesTable sampleBandsTable
           (sampleVertexOpts VUndefined 5 1)).
  reflexivity.
Defined.

(** Threshold 0 sent through [thresholdValue] does not reach the
    classification: with no [threshold] beside it the call fails, and no
    deprecation message is logged. *)
Example thresholdValue_zero_is_dropped :
  getCode {| CodeOpts.cellWeights := map num_of_Z [0; 0; 0; 10];
             CodeOpts.x := 0;
             CodeOpts.y := 0;
             CodeOpts.width := 2;
             CodeOpts.height := 2;
             CodeOpts.threshold := VUndefined;
             CodeOpts.thresholdValue := VNum (num_of_Z 0) |}
  = ([], Err InvalidThreshold).
Proof. reflexivity. Qed.

(** A truthy legacy value wins over [threshold]. *)
Example thresholdValue_five_overrides :
  getCode {| CodeOpts.cellWeights := map num_of_Z [0; 0; 0; 10];
             CodeOpts.x := 0;
             CodeOpts.y := 0;
             CodeOpts.width := 2;
             CodeOpts.height := 2;
             CodeOpts.threshold := VNum (num_of_Z 20);
             CodeOpts.thresholdValue := VNum (num_of_Z 5) |}
  = ([Deprecated "thresholdValue" "threshold"], Ok (4, 0)).
Proof. reflexivity. Qed.

(** * Further properties of the three functions *)

(** ** getVertexCode: the classes as intervals *)

Lemma num_lt_le_trans (a b c : num) :
  num_lt a b = true -> num_le b c = true -> num_lt a c = true.
Proof.
  unfold num_le, num_ge.
  destruct a, b, c; simpl; try congruence; intros Hab Hbc.
  apply negb_true_iff in Hbc. q_order.
Qed.

Lemma Ok_inj {A} (a b : A) : @Ok A a = Ok b <-> a = b.
Proof. split; [intros [= ->]; reflexivity | intros ->; reflexivity]. Qed.

(** X1.  On finite numbers the classes are half-open intervals.  Under a
    scalar threshold [t] a sample is class 1 exactly when [t <= w] and class
    0 exactly when [w < t].  Under a range [[lo, hi]] it is class 0 exactly
    when [w < lo], class 1 exactly when [lo <= w < hi], and class 2 exactly
    when it is below neither bound. *)
Theorem getVertexCode_intervals (w t lo hi : Q) :
  (getVertexCode (Fin w) (VNum (Fin t)) = Ok 1 <-> (t <= w)%Q)
  /\ (getVertexCode (Fin w) (VNum (Fin t)) = Ok 0 <-> (w < t)%Q)
  /\ (getVertexCode (Fin w) (VArray [Fin lo; Fin hi]) = Ok 0 <-> (w < lo)%Q)
  /\ (getVertexCode (Fin w) (VArray [Fin lo; Fin hi]) = Ok 1
      <-> (lo <= w)%Q /\ (w < hi)%Q)
  /\ (getVertexCode (Fin w) (VArray [Fin lo; Fin hi]) = Ok 2
      <-> (lo <= w)%Q /\ (hi <= w)%Q).
Proof.
  rewrite !getVertexCode_accepted by reflexivity.
  rewrite !Ok_inj. unfold classOf, item, num_ge. simpl.
  destruct (Qltb w t) eqn:E1, (Qltb w lo) eqn:E2, (Qltb w hi) eqn:E3; simpl;
    repeat match goal with
           | H : Qltb _ _ = true |- _ => apply Qltb_lt in H
           | H : Qltb _ _ = false |- _ => apply Qltb_ge in H
           end;
    repeat split; intros; try discriminate; try lra; try (split; lra);
    try (exfalso; lra); try (destruct H; exfalso; lra).
Qed.

(** X2.  An iso-band class is the sum of two iso-line classes: for finite
    bounds [lo <= hi] and a sample that is not NaN, the class under the
    range [[lo, hi]] is the class under the scalar [lo] plus the class under
    the scalar [hi]. *)
Theorem getVertexCode_band_is_sum (w : num) (lo hi : Q) :
  (lo <= hi)%Q ->
  num_isNaN w = false ->
  exists a b,
    getVertexCode w (VNum (Fin lo)) = Ok a
    /\ getVertexCode w (VNum (Fin hi)) = Ok b
    /\ getVertexCode w (VArray [Fin lo; Fin hi]) = Ok (a + b).
Proof.
  intros Hle Hw.
  rewrite !getVertexCode_accepted by reflexivity.
  eexists _, _. split; [reflexivity|]. split; [reflexivity|].
  f_equal. unfold classOf, item, num_ge. simpl.
  destruct w as [q| | |]; simpl in *; try discriminate; try reflexivity.
  destruct (Qltb q lo) eqn:E1, (Qltb q hi) eqn:E2; simpl; try reflexivity.
  exfalso. apply Qltb_lt in E1. apply Qltb_ge in E2. lra.
Qed.

Lemma getVertexCode_band_is_sum_witness :
  exists a b,
    getVertexCode (num_of_Z 10) (VNum (Fin 3)) = Ok a
    /\ getVertexCode (num_of_Z 10) (VNum (Fin 8)) = Ok b
    /\ getVertexCode (num_of_Z 10) (VArray [Fin 3; Fin 8]) = Ok (a + b).
Proof.
  apply (getVertexCode_band_is_sum (num_of_Z 10) 3 8).
  - vm_compute. discriminate.
  - reflexivity.
Defined.

(** X3.  A range whose upper bound is not above its lower bound
    ([hi <= lo], which the assertion lets through) has an empty middle
    class: no sample is given class 1. *)
Theorem getVertexCode_degenerate_band (w lo hi : num) :
  num_le hi lo = true ->
  getVertexCode w (VArray [lo; hi]) <> Ok 1.
Proof.
  intros Hle. rewrite getVertexCode_accepted by reflexivity.
  rewrite Ok_inj. unfold classOf, item. simpl.
  destruct (num_lt w lo) eqn:E1; [discriminate|].
  destruct (num_lt w hi) eqn:E2; [|discriminate].
  rewrite (num_lt_le_trans w hi lo E2 Hle) in E1. discriminate.
Qed.

Lemma getVertexCode_degenerate_band_witness :
  getVertexCode (num_of_Z 5) (VArray [num_of_Z 8; num_of_Z 3]) <> Ok 1.
Proof.
  apply (getVertexCode_degenerate_band (num_of_Z 5) (num_of_Z 8) (num_of_Z 3)).
  reflexivity.
Defined.

Lemma item_outside (a : list num) (i : Z) :
  i < 0 \/ Z.of_nat (length a) <= i -> item a i = NaN.
Proof.
  intros H. unfold item.
  destruct (Z.ltb_spec i 0); [reflexivity|].
  rewrite lookup_ge_None_2 by lia. reflexivity.
Qed.

(** X4.  A sample read outside [cellWeights] is not rejected by
    [getVertexCode]: it compares as NaN, which is class 0 under a scalar
    threshold and class 2, the top class, under a range. *)
Theorem getVertexCode_missing_sample (cellWeights : list num) (i : Z) (t : value) :
  i < 0 \/ Z.of_nat (length cellWeights) <= i ->
  isValueOrRange t = true ->
  getVertexCode (item cellWeights i) t = Ok (if isArray t then 2 else 0).
Proof.
  intros Hi Ht. rewrite (item_outside _ _ Hi).
  rewrite getVertexCode_accepted by exact Ht.
  destruct t; try discriminate; reflexivity.
Qed.

Lemma getVertexCode_missing_sample_witness :
  getVertexCode (item (map num_of_Z [0; 0; 0; 10]) 4) (VArray [num_of_Z 3; num_of_Z 8])
  = Ok 2.
Proof.
  apply (getVertexCode_missing_sample (map num_of_Z [0; 0; 0; 10]) 4
           (VArray [num_of_Z 3; num_of_Z 8])).
  - right. simpl. lia.
  - reflexivity.
Defined.

(** ** getCode: failures *)

Lemma getVertexCode_Err (w : num) (t : value) (e : error) :
  getVertexCode w t = Err e -> e = InvalidThreshold.
Proof.
  destruct (isValueOrRange t) eqn:E.
  - rewrite getVertexCode_accepted by exact E. discriminate.
  - rewrite getVertexCode_rejected by exact E. intros [= <-]. reflexivity.
Qed.

Lemma classifyCorner_Err b ws i t e :
  classifyCorner b ws i t = Err e -> e = InvalidThreshold.
Proof.
  unfold classifyCorner. destruct b; [discriminate|].
  destruct (getVertexCode (item ws i) t) eqn:E; cbn [bind]; [discriminate|].
  intros [= <-]. exact (getVertexCode_Err _ _ _ E).
Qed.

Lemma classifyCorners_Err opts t e :
  classifyCorners opts t = Err e -> e = InvalidThreshold.
Proof.
  unfold classifyCorners.
  repeat match goal with
         | |- context [classifyCorner ?b ?ws ?i ?t] =>
             let E := fresh "E" in
             destruct (classifyCorner b ws i t) eqn:E; cbn [bind];
             [|intros [= <-]; exact (classifyCorner_Err _ _ _ _ _ E)]
         end.
  discriminate.
Qed.

Lemma address_checks opts :
  validAddress opts ->
  (CodeOpts.x opts >=? -1) && (CodeOpts.x opts <? CodeOpts.width opts) = true
  /\ (CodeOpts.y opts >=? -1) && (CodeOpts.y opts <? CodeOpts.height opts) = true.
Proof. intros [? ?]. split; zbools. Qed.

Lemma getCodeWith_invalid opts t :
  ~ validAddress opts -> getCodeWith opts t = Err OutOfRange.
Proof.
  intros Hn. unfold getCodeWith.
  destruct ((CodeOpts.x opts >=? -1) && (CodeOpts.x opts <? CodeOpts.width opts)) eqn:Ex;
    [|reflexivity].
  destruct ((CodeOpts.y opts >=? -1) && (CodeOpts.y opts <? CodeOpts.height opts)) eqn:Ey;
    [|reflexivity].
  exfalso. apply Hn. unfold validAddress.
  apply andb_true_iff in Ex, Ey. destruct Ex, Ey. zbools.
Qed.

Lemma getCodeWith_valid_errors opts t e :
  validAddress opts ->
  getCodeWith opts t = Err e ->
  e = InvalidThreshold \/ e = NegativeCode \/ e = NonFiniteWeight.
Proof.
  intros Ha. unfold getCodeWith.
  destruct (address_checks opts Ha) as [-> ->]. cbn [assert bind].
  destruct (classifyCorners opts t) as [cs|e'] eqn:E; cbn [bind].
  - match goal with |- context [assert ?b NegativeCode] => destruct b end;
      cbn [assert bind]; [|intros [= <-]; auto].
    destruct (isBoundary opts); cbn [negb bind]; [discriminate|].
    destruct (allWeightsFinite cs); cbn [assert bind]; [|intros [= <-]; auto].
    destruct (getVertexCode (meanWeight cs) t) eqn:E'; cbn [bind]; [discriminate|].
    intros [= <-]. left. exact (getVertexCode_Err _ _ _ E').
  - intros [= <-]. left. exact (classifyCorners_Err _ _ _ E).
Qed.

Lemma validAddress_dec opts : validAddress opts \/ ~ validAddress opts.
Proof. unfold validAddress. lia. Qed.

(** X5.  [getCode] fails with OutOfRange exactly when the cell address is
    outside [[-1, width) x [-1, height)]; the address is checked before the
    threshold and before any sample is read, so neither can turn the
    failure into another one. *)
Theorem getCode_OutOfRange_iff (opts : CodeOpts.t) :
  snd (getCode opts) = Err OutOfRange <-> ~ validAddress opts.
Proof.
  rewrite getCode_unfold. cbn [snd]. split.
  - intros H Ha.
    destruct (getCodeWith_valid_errors _ _ _ Ha H) as [|[|]]; discriminate.
  - apply getCodeWith_invalid.
Qed.

(** With a threshold that fails the assertion, a corner inside the grid
    is enough for InvalidThreshold. *)
Lemma classifyCorners_rejected_inside opts t :
  validAddress opts ->
  (exists k, inGrid opts (cornerPosition opts k) = true) ->
  isValueOrRange t = false ->
  classifyCorners opts t = Err InvalidThreshold.
Proof.
  intros Ha [k Hk] Ht.
  unfold classifyCorners.
  rewrite (flags_top _ Ha), (flags_topRight _ Ha), (flags_right _ Ha), (flags_current _ Ha).
  destruct (inGrid opts (cornerPosition opts Top)) eqn:E1; cbn [negb];
    [rewrite classifyCorner_rejected by exact Ht; reflexivity
    |rewrite classifyCorner_boundary; cbn [bind]].
  destruct (inGrid opts (cornerPosition opts TopRight)) eqn:E2; cbn [negb];
    [rewrite classifyCorner_rejected by exact Ht; reflexivity
    |rewrite classifyCorner_boundary; cbn [bind]].
  destruct (inGrid opts (cornerPosition opts Right)) eqn:E3; cbn [negb];
    [rewrite classifyCorner_rejected by exact Ht; reflexivity
    |rewrite classifyCorner_boundary; cbn [bind]].
  destruct (inGrid opts (cornerPosition opts Current)) eqn:E4; cbn [negb];
    [rewrite classifyCorner_rejected by exact Ht; reflexivity
    |rewrite classifyCorner_boundary; cbn [bind]].
  destruct k; congruence.
Qed.

Lemma interior_all_inside opts :
  validAddress opts ->
  isBoundary opts = false ->
  forall k, inGrid opts (cornerPosition opts k) = true.
Proof.
  intros Ha Hb k.
  destruct (inGrid opts (cornerPosition opts k)) eqn:E; [reflexivity|].
  assert (isBoundary opts = true); [|congruence].
  apply isBoundary_outside; eauto.
Qed.

Lemma allWeightsFinite_interior opts t :
  validAddress opts ->
  isBoundary opts = false ->
  allWeightsFinite (cornerRecords opts t) = true
  <-> forall k, num_isFinite (sampleAt opts (cornerPosition opts k)) = true.
Proof.
  intros Ha Hb. pose proof (interior_all_inside opts Ha Hb) as Hin.
  unfold allWeightsFinite, weightIsFinite, cornerRecords, cornerRecord.
  cbn [top topRight right current]. rewrite !Hin. cbn [weight].
  rewrite !andb_true_iff. split.
  - intros [[[? ?] ?] ?] k. destruct k; assumption.
  - intros H. repeat split; apply H.
Qed.

(** X6.  On a grid of positive size [getCode] returns a result exactly
    when the address is valid, the threshold is a finite number or an array
    of more than one element, and, for a cell off the boundary, its four
    samples are finite.  The samples of a boundary cell are not examined. *)
Theorem getCode_returns_iff (opts : CodeOpts.t) :
  0 < CodeOpts.width opts ->
  0 < CodeOpts.height opts ->
  (exists r, snd (getCode opts) = Ok r)
  <-> validAddress opts
      /\ isValueOrRange (snd (selectThreshold opts)) = true
      /\ (isBoundary opts = false ->
          forall k, num_isFinite (sampleAt opts (cornerPosition opts k)) = true).
Proof.
  intros Hw Hh. rewrite getCode_unfold. cbn [snd].
  set (t := snd (selectThreshold opts)). split.
  - intros [r Hr].
    destruct (validAddress_dec opts) as [Ha|Hn];
      [|rewrite getCodeWith_invalid in Hr by exact Hn; discriminate].
    destruct (isValueOrRange t) eqn:Ht;
      [|rewrite getCodeWith_rejected in Hr by assumption; discriminate].
    split; [exact Ha|]. split; [reflexivity|]. intros Hb.
    apply (allWeightsFinite_interior opts t Ha Hb).
    rewrite getCodeWith_accepted in Hr by assumption. rewrite Hb in Hr.
    destruct (allWeightsFinite (cornerRecords opts t)); [reflexivity|discriminate].
  - intros (Ha & Ht & Hfin).
    rewrite getCodeWith_accepted by assumption.
    destruct (isBoundary opts) eqn:Hb; [eauto|].
    apply (allWeightsFinite_interior opts t Ha Hb) in Hfin; [|reflexivity].
    rewrite Hfin. eauto.
Qed.

Lemma getCode_returns_iff_witness :
  (exists r, snd (getCode (scenarioCell (VNum (num_of_Z 5)) 0 0)) = Ok r)
  <-> validAddress (scenarioCell (VNum (num_of_Z 5)) 0 0)
      /\ isValueOrRange (snd (selectThreshold (scenarioCell (VNum (num_of_Z 5)) 0 0))) = true
      /\ (isBoundary (scenarioCell (VNum (num_of_Z 5)) 0 0) = false ->
          forall k,
            num_isFinite
              (sampleAt (scenarioCell (VNum (num_of_Z 5)) 0 0)
                 (cornerPosition (scenarioCell (VNum (num_of_Z 5)) 0 0) k)) = true).
Proof.
  apply (getCode_returns_iff (scenarioCell (VNum (num_of_Z 5)) 0 0)); simpl; lia.
Defined.

(** X7.  [getCode] fails with NonFiniteWeight exactly on a valid cell off
    the boundary, under an accepted threshold, one of whose four samples
    is not finite (NaN, an infinity, or a read outside [cellWeights]). *)
Theorem getCode_NonFiniteWeight_iff (opts : CodeOpts.t) :
  snd (getCode opts) = Err NonFiniteWeight
  <-> validAddress opts
      /\ isValueOrRange (snd (selectThreshold opts)) = true
      /\ isBoundary opts = false
      /\ exists k, num_isFinite (sampleAt opts (cornerPosition opts k)) = false.
Proof.
  rewrite getCode_unfold. cbn [snd].
  set (t := snd (selectThreshold opts)). split.
  - intros H.
    destruct (validAddress_dec opts) as [Ha|Hn];
      [|rewrite getCodeWith_invalid in H by exact Hn; discriminate].
    split; [exact Ha|].
    destruct (isValueOrRange t) eqn:Ht.
    + split; [reflexivity|].
      rewrite getCodeWith_accepted in H by assumption.
      destruct (isBoundary opts) eqn:Hb; [discriminate|]. split; [reflexivity|].
      destruct (allWeightsFinite (cornerRecords opts t)) eqn:Hf; [discriminate|].
      destruct (num_isFinite (sampleAt opts (cornerPosition opts Top))) eqn:F1;
        [|exists Top; exact F1].
      destruct (num_isFinite (sampleAt opts (cornerPosition opts TopRight))) eqn:F2;
        [|exists TopRight; exact F2].
      destruct (num_isFinite (sampleAt opts (cornerPosition opts Right))) eqn:F3;
        [|exists Right; exact F3].
      destruct (num_isFinite (sampleAt opts (cornerPosition opts Current))) eqn:F4;
        [|exists Current; exact F4].
      assert (allWeightsFinite (cornerRecords opts t) = true); [|congruence].
      apply allWeightsFinite_interior; try assumption.
      intros k. destruct k; assumption.
    + exfalso. revert H. unfold getCodeWith.
      destruct (address_checks opts Ha) as [-> ->]. cbn [assert bind].
      destruct (classifyCorners opts t) as [cs|e'] eqn:E; cbn [bind].
      * match goal with |- context [assert ?b NegativeCode] => destruct b end;
          cbn [assert bind]; [|discriminate].
        destruct (isBoundary opts) eqn:Hb; cbn [negb bind]; [discriminate|].
        rewrite classifyCorners_rejected_inside in E; try assumption; [discriminate|].
        exists Top. apply interior_all_inside; assumption.
      * intros [= ->]. apply classifyCorners_Err in E. discriminate.
  - intros (Ha & Ht & Hb & k & Hk).
    rewrite getCodeWith_accepted by assumption. rewrite Hb.
    destruct (allWeightsFinite (cornerRecords opts t)) eqn:Hf; [|reflexivity].
    apply allWeightsFinite_interior with (k := k) in Hf; try assumption. congruence.
Qed.

Lemma empty_grid_outside opts k :
  CodeOpts.width opts = 0 \/ CodeOpts.height opts = 0 ->
  inGrid opts (cornerPosition opts k) = false.
Proof.
  intros H. unfold inGrid. destruct k; simpl; zbools.
Qed.

(** X8.  On an empty grid (width or height 0) no corner is inside, no
    sample is read and [getVertexCode] is never called: a valid address
    gets code 0 and mean code 0 when the threshold is a finite number or
    any array, even one with fewer than two elements, and the failure for
    any other threshold is NegativeCode, not InvalidThreshold. *)
Theorem getCode_empty_grid (opts : CodeOpts.t) :
  validAddress opts ->
  CodeOpts.width opts = 0 \/ CodeOpts.height opts = 0 ->
  snd (getCode opts)
  = if isFinite (snd (selectThreshold opts)) || isArray (snd (selectThreshold opts))
    then Ok (0, 0)
    else Err NegativeCode.
Proof.
  intros Ha He. rewrite getCode_unfold. cbn [snd].
  set (t := snd (selectThreshold opts)).
  assert (isBoundary opts = true) as Hb.
  { apply isBoundary_outside; [exact Ha|]. exists Top. apply empty_grid_outside, He. }
  unfold getCodeWith.
  destruct (address_checks opts Ha) as [-> ->]. cbn [assert bind].
  unfold classifyCorners.
  rewrite (flags_top _ Ha), (flags_topRight _ Ha), (flags_right _ Ha), (flags_current _ Ha).
  rewrite !empty_grid_outside by exact He. cbn [negb].
  rewrite !classifyCorner_boundary. cbn [bind top topRight right current class].
  rewrite Hb. cbn [negb].
  destruct (isFinite t), (isArray t); reflexivity.
Qed.

Lemma getCode_empty_grid_witness :
  snd (getCode {| CodeOpts.cellWeights := [];
                  CodeOpts.x := -1;
                  CodeOpts.y := 0;
                  CodeOpts.width := 0;
                  CodeOpts.height := 3;
                  CodeOpts.threshold := VArray [];
                  CodeOpts.thresholdValue := VUndefined |})
  = Ok (0, 0).
Proof.
  apply (getCode_empty_grid
           {| CodeOpts.cellWeights := [];
              CodeOpts.x := -1;
              CodeOpts.y := 0;
              CodeOpts.width := 0;
              CodeOpts.height := 3;
              CodeOpts.threshold := VArray [];
              CodeOpts.thresholdValue := VUndefined |}).
  - unfold validAddress. simpl. lia.
  - left. reflexivity.
Defined.

Lemma outside_class opts t k :
  inGrid opts (cornerPosition opts k) = false ->
  class (cornerRecord opts t k) = 0.
Proof. intros H. unfold cornerRecord. rewrite H. reflexivity. Qed.

(** A cell on the boundary has a whole side of its window outside the
    grid. *)
Lemma boundary_side_outside opts :
  validAddress opts ->
  isBoundary opts = true ->
  (inGrid opts (cornerPosition opts Top) = false
   /\ inGrid opts (cornerPosition opts Current) = false)
  \/ (inGrid opts (cornerPosition opts TopRight) = false
      /\ inGrid opts (cornerPosition opts Right) = false)
  \/ (inGrid opts (cornerPosition opts Right) = false
      /\ inGrid opts (cornerPosition opts Current) = false)
  \/ (inGrid opts (cornerPosition opts Top) = false
      /\ inGrid opts (cornerPosition opts TopRight) = false).
Proof.
  unfold validAddress, isBoundary, inGrid. simpl. intros [Hx Hy] Hb.
  rewrite !orb_true_iff in Hb. rewrite Z.geb_leb in Hb.
  destruct Hb as [[[Hb|Hb]|Hb]|Hb].
  - left. zbools.
  - right; left. zbools.
  - right; right; left. zbools.
  - right; right; right. rewrite Z.geb_leb in Hb. zbools.
Qed.

(** X9.  No saddle on the boundary.  A valid cell on the boundary has a
    whole side of its 2x2 window (left, right, bottom or top) with both
    corners of class 0; it gets mean code 0, and under a scalar threshold
    its code is neither of the two diagonal codes 5 and 10. *)
Theorem getCode_boundary_no_saddle (opts : CodeOpts.t) :
  validAddress opts ->
  isValueOrRange (snd (selectThreshold opts)) = true ->
  isBoundary opts = true ->
  exists cs code,
    classifyCorners opts (snd (selectThreshold opts)) = Ok cs
    /\ snd (getCode opts) = Ok (code, 0)
    /\ ((class (top cs) = 0 /\ class (current cs) = 0)
        \/ (class (topRight cs) = 0 /\ class (right cs) = 0)
        \/ (class (right cs) = 0 /\ class (current cs) = 0)
        \/ (class (top cs) = 0 /\ class (topRight cs) = 0))
    /\ (isFinite (snd (selectThreshold opts)) = true -> code <> 5 /\ code <> 10).
Proof.
  intros Ha Ht Hb.
  rewrite getCode_unfold. cbn [snd]. set (t := snd (selectThreshold opts)) in *.
  exists (cornerRecords opts t), (packCorners t (cornerRecords opts t)).
  split; [apply classifyCorners_accepted; assumption|].
  split; [rewrite getCodeWith_accepted by assumption; rewrite Hb; reflexivity|].
  assert ((class (top (cornerRecords opts t)) = 0
           /\ class (current (cornerRecords opts t)) = 0)
          \/ (class (topRight (cornerRecords opts t)) = 0
              /\ class (right (cornerRecords opts t)) = 0)
          \/ (class (right (cornerRecords opts t)) = 0
              /\ class (current (cornerRecords opts t)) = 0)
          \/ (class (top (cornerRecords opts t)) = 0
              /\ class (topRight (cornerRecords opts t)) = 0)) as Hside.
  { cbn [cornerRecords top topRight right current].
    destruct (boundary_side_outside opts Ha Hb) as [[? ?]|[[? ?]|[[? ?]|[? ?]]]];
      [left | right; left | right; right; left | right; right; right];
      split; apply outside_class; assumption. }
  split; [exact Hside|].
  intros Hfin. unfold packCorners.
  assert (isArray t = false) as -> by (destruct t; try discriminate; reflexivity).
  revert Hside. cbn [cornerRecords top topRight right current].
  pose proof (class_cornerRecord_scalar opts t Top Hfin) as H1.
  pose proof (class_cornerRecord_scalar opts t TopRight Hfin) as H2.
  pose proof (class_cornerRecord_scalar opts t Right Hfin) as H3.
  pose proof (class_cornerRecord_scalar opts t Current Hfin) as H4.
  generalize dependent (class (cornerRecord opts t Top)).
  generalize dependent (class (cornerRecord opts t TopRight)).
  generalize dependent (class (cornerRecord opts t Right)).
  generalize dependent (class (cornerRecord opts t Current)).
  intros d H4 c H3 b H2 a H1 Hside.
  small_cases; vm_compute; split; intros [=];
    destruct Hside as [[? ?]|[[? ?]|[[? ?]|[? ?]]]]; discriminate.
Qed.

Lemma getCode_boundary_no_saddle_witness :
  exists cs code,
    classifyCorners (scenarioCell (VNum (num_of_Z 5)) 1 1) (VNum (num_of_Z 5)) = Ok cs
    /\ snd (getCode (scenarioCell (VNum (num_of_Z 5)) 1 1)) = Ok (code, 0)
    /\ ((class (top cs) = 0 /\ class (current cs) = 0)
        \/ (class (topRight cs) = 0 /\ class (right cs) = 0)
        \/ (class (right cs) = 0 /\ class (current cs) = 0)
        \/ (class (top cs) = 0 /\ class (topRight cs) = 0))
    /\ (true = true -> code <> 5 /\ code <> 10).
Proof.
  apply (getCode_boundary_no_saddle (scenarioCell (VNum (num_of_Z 5)) 1 1)).
  - unfold validAddress. simpl. lia.
  - reflexivity.
  - reflexivity.
Defined.

(** ** getCode: the mean code *)

Lemma num_le_Fin (a b : Q) : num_le (Fin a) (Fin b) = true <-> (a <= b)%Q.
Proof.
  unfold num_le, num_ge. simpl. rewrite negb_true_iff. apply Qltb_ge.
Qed.







(** ** getCode: reading the code back *)

Lemma codeSlots_packCorners opts t :
  isValueOrRange t = true ->
  codeSlots t (packCorners t (cornerRecords opts t))
  = [class (cornerRecord opts t Top); class (cornerRecord opts t TopRight);
     class (cornerRecord opts t Right); class (cornerRecord opts t Current)].
Proof.
  intros Ht. unfold codeSlots, packCorners, cornerRecords.
  cbn [top topRight right current].
  destruct (isArray t) eqn:Hm.
  - apply packBands_slots; apply class_cornerRecord_range.
  - assert (isFinite t = true) as Hfin
      by (destruct t; try discriminate; exact Ht).
    apply packLines_slots; apply class_cornerRecord_scalar, Hfin.
Qed.

(** X11.  The code can be decoded: on a ScalarField, a valid address and a
    valid threshold, the four slots of the returned code (one bit each for
    a scalar threshold, two bits each for a range), read in the order top,
    top-right, right, current, are the classes of the four corners. *)
Theorem getCode_slots (opts : CodeOpts.t) :
  ScalarField opts ->
  validAddress opts ->
  isThresholdSpec (snd (selectThreshold opts)) = true ->
  exists code meanCode a b c d,
    snd (getCode opts) = Ok (code, meanCode)
    /\ codeSlots (snd (selectThreshold opts)) code = [a; b; c; d]
    /\ cornerHasClass opts (snd (selectThreshold opts)) Top a
    /\ cornerHasClass opts (snd (selectThreshold opts)) TopRight b
    /\ cornerHasClass opts (snd (selectThreshold opts)) Right c
    /\ cornerHasClass opts (snd (selectThreshold opts)) Current d.
Proof.
  intros Hf Ha Ht. rewrite getCode_unfold. cbn [snd].
  set (t := snd (selectThreshold opts)) in *.
  apply isThresholdSpec_isValueOrRange in Ht.
  rewrite getCodeWith_total by assumption.
  eexists _, _, _, _, _, _. split; [reflexivity|].
  split; [apply codeSlots_packCorners, Ht|].
  repeat split; apply cornerHasClass_record, Ht.
Qed.

Lemma getCode_slots_witness :
  exists code meanCode a b c d,
    snd (getCode (scenarioCell (VArray [num_of_Z 3; num_of_Z 8]) 0 0)) = Ok (code, meanCode)
    /\ codeSlots (snd (selectThreshold (scenarioCell (VArray [num_of_Z 3; num_of_Z 8]) 0 0)))
         code = [a; b; c; d]
    /\ cornerHasClass (scenarioCell (VArray [num_of_Z 3; num_of_Z 8]) 0 0)
         (snd (selectThreshold (scenarioCell (VArray [num_of_Z 3; num_of_Z 8]) 0 0))) Top a
    /\ cornerHasClass (scenarioCell (VArray [num_of_Z 3; num_of_Z 8]) 0 0)
         (snd (selectThreshold (scenarioCell (VArray [num_of_Z 3; num_of_Z 8]) 0 0)))
         TopRight b
    /\ cornerHasClass (scenarioCell (VArray [num_of_Z 3; num_of_Z 8]) 0 0)
         (snd (selectThreshold (scenarioCell (VArray [num_of_Z 3; num_of_Z 8]) 0 0)))
         Right c
    /\ cornerHasClass (scenarioCell (VArray [num_of_Z 3; num_of_Z 8]) 0 0)
         (snd (selectThreshold (scenarioCell (VArray [num_of_Z 3; num_of_Z 8]) 0 0)))
         Current d.
Proof.
  apply (getCode_slots (scenarioCell (VArray [num_of_Z 3; num_of_Z 8]) 0 0)).
  - unfold ScalarField. simpl. repeat split; try lia. repeat constructor.
  - unfold validAddress. simpl. lia.
  - reflexivity.
Defined.

(** ** getCode: what it reads *)

Lemma classifyCorner_inGrid opts t k i :
  i = snd (cornerPosition opts k) * CodeOpts.width opts + fst (cornerPosition opts k) ->
  classifyCorner (negb (inGrid opts (cornerPosition opts k)))
    (CodeOpts.cellWeights opts) i t
  = if inGrid opts (cornerPosition opts k)
    then (let! c := getVertexCode (sampleAt opts (cornerPosition opts k)) t in
          Ok {| weight := Some (sampleAt opts (cornerPosition opts k)); class := c |})
    else Ok {| weight := None; class := 0 |}.
Proof.
  intros ->. destruct (inGrid opts (cornerPosition opts k)); reflexivity.
Qed.

Lemma classifyCorners_window opts ws t :
  validAddress opts ->
  (forall k, inGrid opts (cornerPosition opts k) = true ->
             sampleAt (withWeights opts ws) (cornerPosition opts k)
             = sampleAt opts (cornerPosition opts k)) ->
  classifyCorners (withWeights opts ws) t = classifyCorners opts t.
Proof.
  intros Ha Hs.
  assert (validAddress (withWeights opts ws)) as Ha' by exact Ha.
  unfold classifyCorners.
  rewrite (flags_top _ Ha), (flags_topRight _ Ha), (flags_right _ Ha), (flags_current _ Ha).
  rewrite (flags_top _ Ha'), (flags_topRight _ Ha'), (flags_right _ Ha'),
    (flags_current _ Ha').
  rewrite (classifyCorner_inGrid opts t Top) by (simpl; lia).
  rewrite (classifyCorner_inGrid opts t TopRight) by (simpl; lia).
  rewrite (classifyCorner_inGrid opts t Right) by (simpl; lia).
  rewrite (classifyCorner_inGrid opts t Current) by (simpl; lia).
  rewrite (classifyCorner_inGrid (withWeights opts ws) t Top) by (simpl; lia).
  rewrite (classifyCorner_inGrid (withWeights opts ws) t TopRight) by (simpl; lia).
  rewrite (classifyCorner_inGrid (withWeights opts ws) t Right) by (simpl; lia).
  rewrite (classifyCorner_inGrid (withWeights opts ws) t Current) by (simpl; lia).
  change (cornerPosition (withWeights opts ws)) with (cornerPosition opts).
  change (inGrid (withWeights opts ws)) with (inGrid opts).
  destruct (inGrid opts (cornerPosition opts Top)) eqn:E1;
    destruct (inGrid opts (cornerPosition opts TopRight)) eqn:E2;
    destruct (inGrid opts (cornerPosition opts Right)) eqn:E3;
    destruct (inGrid opts (cornerPosition opts Current)) eqn:E4;
    rewrite ?(Hs Top E1), ?(Hs TopRight E2), ?(Hs Right E3), ?(Hs Current E4);
    reflexivity.
Qed.

(** X12.  [getCode] looks at no sample but the corners of the cell that
    lie inside the grid: a call on other samples that agree with
    [cellWeights] at those corners logs and returns the same. *)
Theorem getCode_reads_window_only (opts : CodeOpts.t) (ws : list num) :
  (forall k, inGrid opts (cornerPosition opts k) = true ->
             sampleAt (withWeights opts ws) (cornerPosition opts k)
             = sampleAt opts (cornerPosition opts k)) ->
  getCode (withWeights opts ws) = getCode opts.
Proof.
  intros Hs. rewrite !getCode_unfold.
  change (selectThreshold (withWeights opts ws)) with (selectThreshold opts).
  f_equal. set (t := snd (selectThreshold opts)).
  destruct (validAddress_dec opts) as [Ha|Hn].
  - unfold getCodeWith. rewrite (classifyCorners_window opts ws t Ha Hs). reflexivity.
  - rewrite !getCodeWith_invalid; [reflexivity | exact Hn | exact Hn].
Qed.

Lemma getCode_reads_window_only_witness :
  getCode (withWeights (scenarioCell (VNum (num_of_Z 5)) 1 1)
             [NaN; PInf; num_of_Z 7; num_of_Z 10; num_of_Z 99])
  = getCode (scenarioCell (VNum (num_of_Z 5)) 1 1).
Proof.
  apply (getCode_reads_window_only (scenarioCell (VNum (num_of_Z 5)) 1 1)
           [NaN; PInf; num_of_Z 7; num_of_Z 10; num_of_Z 99]).
  intros k. destruct k; vm_compute; congruence.
Defined.

(** ** getCode: neighbouring cells *)

Lemma getCode_slots_records opts :
  ScalarField opts ->
  validAddress opts ->
  isValueOrRange (snd (selectThreshold opts)) = true ->
  exists code meanCode,
    snd (getCode opts) = Ok (code, meanCode)
    /\ codeSlots (snd (selectThreshold opts)) code
       = [class (cornerRecord opts (snd (selectThreshold opts)) Top);
          class (cornerRecord opts (snd (selectThreshold opts)) TopRight);
          class (cornerRecord opts (snd (selectThreshold opts)) Right);
          class (cornerRecord opts (snd (selectThreshold opts)) Current)].
Proof.
  intros Hf Ha Ht. rewrite getCode_unfold. cbn [snd].
  rewrite getCodeWith_total by assumption.
  eexists _, _. split; [reflexivity|]. apply codeSlots_packCorners, Ht.
Qed.

(** X13.  A cell and its right neighbour agree on the two corners they
    share: the right and top-right slots of the code at [(x, y)] are the
    current and top slots of the code at [(x + 1, y)]. *)
Theorem getCode_right_neighbour (opts : CodeOpts.t) :
  ScalarField opts ->
  validAddress opts ->
  validAddress (withAddress opts (CodeOpts.x opts + 1) (CodeOpts.y opts)) ->
  isValueOrRange (snd (selectThreshold opts)) = true ->
  exists code meanCode code' meanCode',
    snd (getCode opts) = Ok (code, meanCode)
    /\ snd (getCode (withAddress opts (CodeOpts.x opts + 1) (CodeOpts.y opts)))
       = Ok (code', meanCode')
    /\ codeSlots (snd (selectThreshold opts)) code !! 2%nat
       = codeSlots (snd (selectThreshold opts)) code' !! 3%nat
    /\ codeSlots (snd (selectThreshold opts)) code !! 1%nat
       = codeSlots (snd (selectThreshold opts)) code' !! 0%nat.
Proof.
  intros Hf Ha Ha' Ht.
  destruct (getCode_slots_records opts Hf Ha Ht) as (code & m & H1 & S1).
  destruct (getCode_slots_records
              (withAddress opts (CodeOpts.x opts + 1) (CodeOpts.y opts)) Hf Ha' Ht)
    as (code' & m' & H2 & S2).
  exists code, m, code', m'. split; [exact H1|]. split; [exact H2|].
  change (selectThreshold (withAddress opts (CodeOpts.x opts + 1) (CodeOpts.y opts)))
    with (selectThreshold opts) in S2.
  rewrite S1, S2. split; reflexivity.
Qed.

Lemma getCode_right_neighbour_witness :
  exists code meanCode code' meanCode',
    snd (getCode (scenarioCell (VNum (num_of_Z 5)) 0 0)) = Ok (code, meanCode)
    /\ snd (getCode (withAddress (scenarioCell (VNum (num_of_Z 5)) 0 0) (0 + 1) 0))
       = Ok (code', meanCode')
    /\ codeSlots (VNum (num_of_Z 5)) code !! 2%nat
       = codeSlots (VNum (num_of_Z 5)) code' !! 3%nat
    /\ codeSlots (VNum (num_of_Z 5)) code !! 1%nat
       = codeSlots (VNum (num_of_Z 5)) code' !! 0%nat.
Proof.
  apply (getCode_right_neighbour (scenarioCell (VNum (num_of_Z 5)) 0 0)).
  - unfold ScalarField. simpl. repeat split; try lia. repeat constructor.
  - unfold validAddress. simpl. lia.
  - unfold validAddress. simpl. lia.
  - reflexivity.
Defined.

(** X14.  A cell and the cell above it agree on the two corners they
    share: the top and top-right slots of the code at [(x, y)] are the
    current and right slots of the code at [(x, y + 1)]. *)
Theorem getCode_upper_neighbour (opts : CodeOpts.t) :
  ScalarField opts ->
  validAddress opts ->
  validAddress (withAddress opts (CodeOpts.x opts) (CodeOpts.y opts + 1)) ->
  isValueOrRange (snd (selectThreshold opts)) = true ->
  exists code meanCode code' meanCode',
    snd (getCode opts) = Ok (code, meanCode)
    /\ snd (getCode (withAddress opts (CodeOpts.x opts) (CodeOpts.y opts + 1)))
       = Ok (code', meanCode')
    /\ codeSlots (snd (selectThreshold opts)) code !! 0%nat
       = codeSlots (snd (selectThreshold opts)) code' !! 3%nat
    /\ codeSlots (snd (selectThreshold opts)) code !! 1%nat
       = codeSlots (snd (selectThreshold opts)) code' !! 2%nat.
Proof.
  intros Hf Ha Ha' Ht.
  destruct (getCode_slots_records opts Hf Ha Ht) as (code & m & H1 & S1).
  destruct (getCode_slots_records
              (withAddress opts (CodeOpts.x opts) (CodeOpts.y opts + 1)) Hf Ha' Ht)
    as (code' & m' & H2 & S2).
  exists code, m, code', m'. split; [exact H1|]. split; [exact H2|].
  change (selectThreshold (withAddress opts (CodeOpts.x opts) (CodeOpts.y opts + 1)))
    with (selectThreshold opts) in S2.
  rewrite S1, S2. split; reflexivity.
Qed.

Lemma getCode_upper_neighbour_witness :
  exists code meanCode code' meanCode',
    snd (getCode (scenarioCell (VNum (num_of_Z 5)) 0 0)) = Ok (code, meanCode)
    /\ snd (getCode (withAddress (scenarioCell (VNum (num_of_Z 5)) 0 0) 0 (0 + 1)))
       = Ok (code', meanCode')
    /\ codeSlots (VNum (num_of_Z 5)) code !! 0%nat
       = codeSlots (VNum (num_of_Z 5)) code' !! 3%nat
    /\ codeSlots (VNum (num_of_Z 5)) code !! 1%nat
       = codeSlots (VNum (num_of_Z 5)) code' !! 2%nat.
Proof.
  apply (getCode_upper_neighbour (scenarioCell (VNum (num_of_Z 5)) 0 0)).
  - unfold ScalarField. simpl. repeat split; try lia. repeat constructor.
  - unfold validAddress. simpl. lia.
  - unfold validAddress. simpl. lia.
  - reflexivity.
Defined.

(** ** getCode: the threshold *)

Lemma getCode_withThreshold opts t :
  getCode (withThreshold opts t) = ([], getCodeWith opts t).
Proof. reflexivity. Qed.

Lemma isValueOrRange_long lo hi rest :
  isValueOrRange (VArray (lo :: hi :: rest)) = true.
Proof. simpl. apply Z.ltb_lt. lia. Qed.

(** X15.  Only the first two elements of an array threshold matter: a
    call with the range [[lo, hi, ...]] logs and returns what the call with
    [[lo, hi]] does. *)
Theorem getCode_range_tail_ignored (opts : CodeOpts.t) (lo hi : num) (rest : list num) :
  getCode (withThreshold opts (VArray (lo :: hi :: rest)))
  = getCode (withThreshold opts (VArray [lo; hi])).
Proof.
  rewrite !getCode_withThreshold. f_equal.
  destruct (validAddress_dec opts) as [Ha|Hn].
  - rewrite !getCodeWith_accepted; try assumption; try apply isValueOrRange_long.
    reflexivity.
  - rewrite !getCodeWith_invalid; [reflexivity | exact Hn | exact Hn].
Qed.

Lemma classOf_antitone (w : num) (t1 t2 : Q) :
  (t1 <= t2)%Q ->
  classOf w (VNum (Fin t2)) <= classOf w (VNum (Fin t1)).
Proof.
  intros Hle. simpl.
  destruct (num_ge w (Fin t2)) eqn:E2; [|destruct (num_ge w (Fin t1)); lia].
  assert (num_ge w (Fin t1) = true) as ->; [|lia].
  apply (num_le_trans (Fin t1) (Fin t2) w); [|exact E2].
  apply num_le_Fin, Hle.
Qed.

Lemma class_cornerRecord_antitone opts k (t1 t2 : Q) :
  (t1 <= t2)%Q ->
  0 <= class (cornerRecord opts (VNum (Fin t2)) k)
    <= class (cornerRecord opts (VNum (Fin t1)) k)
  /\ class (cornerRecord opts (VNum (Fin t1)) k) <= 1.
Proof.
  intros Hle.
  pose proof (class_cornerRecord_scalar opts (VNum (Fin t1)) k eq_refl).
  pose proof (class_cornerRecord_scalar opts (VNum (Fin t2)) k eq_refl).
  split; [|lia]. split; [lia|].
  unfold cornerRecord. destruct (inGrid opts (cornerPosition opts k)); cbn [class]; [|lia].
  apply classOf_antitone, Hle.
Qed.

Lemma packLines_nested a b c d a' b' c' d' :
  0 <= a' <= a /\ a <= 1 -> 0 <= b' <= b /\ b <= 1 ->
  0 <= c' <= c /\ c <= 1 -> 0 <= d' <= d /\ d <= 1 ->
  Z.land (packLines a b c d) (packLines a' b' c' d') = packLines a' b' c' d'.
Proof.
  intros Ha Hb Hc Hd.
  assert ((a = 0 /\ a' = 0) \/ (a = 1 /\ a' = 0) \/ (a = 1 /\ a' = 1))
    as [[-> ->]|[[-> ->]|[-> ->]]] by lia;
  assert ((b = 0 /\ b' = 0) \/ (b = 1 /\ b' = 0) \/ (b = 1 /\ b' = 1))
    as [[-> ->]|[[-> ->]|[-> ->]]] by lia;
  assert ((c = 0 /\ c' = 0) \/ (c = 1 /\ c' = 0) \/ (c = 1 /\ c' = 1))
    as [[-> ->]|[[-> ->]|[-> ->]]] by lia;
  assert ((d = 0 /\ d' = 0) \/ (d = 1 /\ d' = 0) \/ (d = 1 /\ d' = 1))
    as [[-> ->]|[[-> ->]|[-> ->]]] by lia;
  reflexivity.
Qed.

(** X16.  Iso-lines nest.  On the same cell, raising a scalar threshold
    only clears corners: every corner bit set in the code for the higher
    threshold is set in the code for the lower one, and the mean code does
    not increase. *)
Theorem getCode_threshold_nesting (opts : CodeOpts.t) (t1 t2 : Q) :
  ScalarField opts ->
  validAddress opts ->
  (t1 <= t2)%Q ->
  exists code1 meanCode1 code2 meanCode2,
    snd (getCode (withThreshold opts (VNum (Fin t1)))) = Ok (code1, meanCode1)
    /\ snd (getCode (withThreshold opts (VNum (Fin t2)))) = Ok (code2, meanCode2)
    /\ Z.land code1 code2 = code2
    /\ meanCode2 <= meanCode1.
Proof.
  intros Hf Ha Hle. rewrite !getCode_withThreshold. cbn [snd].
  rewrite !getCodeWith_total by (try assumption; reflexivity).
  eexists _, _, _, _. split; [reflexivity|]. split; [reflexivity|]. split.
  - unfold packCorners, cornerRecords. cbn [isArray top topRight right current].
    apply packLines_nested; apply class_cornerRecord_antitone, Hle.
  - destruct (isBoundary opts); [lia|].
    assert (meanWeight (cornerRecords opts (VNum (Fin t2)))
            = meanWeight (cornerRecords opts (VNum (Fin t1)))) as ->.
    { unfold meanWeight, weightOperand, cornerRecords, cornerRecord.
      cbn [top topRight right current].
      destruct (inGrid opts (cornerPosition opts Top)),
        (inGrid opts (cornerPosition opts TopRight)),
        (inGrid opts (cornerPosition opts Right)),
        (inGrid opts (cornerPosition opts Current)); reflexivity. }
    apply classOf_antitone, Hle.
Qed.

Lemma getCode_threshold_nesting_witness :
  exists code1 meanCode1 code2 meanCode2,
    snd (getCode (withThreshold (scenarioCell VUndefined 0 0) (VNum (Fin 2))))
    = Ok (code1, meanCode1)
    /\ snd (getCode (withThreshold (scenarioCell VUndefined 0 0) (VNum (Fin 5))))
       = Ok (code2, meanCode2)
    /\ Z.land code1 code2 = code2
    /\ meanCode2 <= meanCode1.
Proof.
  apply (getCode_threshold_nesting (scenarioCell VUndefined 0 0) 2 5).
  - unfold ScalarField. simpl. repeat split; try lia. repeat constructor.
  - unfold validAddress. simpl. lia.
  - vm_compute. discriminate.
Defined.

(** ** getVertices: outcomes *)

Lemma length_flat_map_map {A B} (f : A -> B) (ts : list (list A)) :
  length (flat_map (map f) ts) = length (concat ts).
Proof.
  induction ts as [|t ts IH]; simpl; [reflexivity|].
  rewrite !length_app, length_map, IH. reflexivity.
Qed.

Lemma worldPoint_shape opts o :
  length (worldPoint opts o) = 3%nat /\ worldPoint opts o !! 2%nat = Some (depthOf opts).
Proof. split; reflexivity. Qed.

Lemma address_floor_iff (x y : Z) :
  (x >=? -1) && (y >=? -1) = true <-> -1 <= x /\ -1 <= y.
Proof. rewrite andb_true_iff, !Z.geb_leb, !Z.leb_le. reflexivity. Qed.

Lemma selectedTemplates_unrecognised lines bands opts :
  recognisedType opts = false -> selectedTemplates lines bands opts = None.
Proof.
  unfold recognisedType, selectedTemplates.
  destruct (strictEqZ (typeOrDefault (VertexOpts.type opts)) ISO_LINES),
    (strictEqZ (typeOrDefault (VertexOpts.type opts)) ISO_BANDS);
    simpl; congruence.
Qed.

Section VertexOutcomes.

Variable ISOLINES_CODE_OFFSET_MAP : gmap Z tableEntry.
Variable ISOBANDS_CODE_OFFSET_MAP : gmap Z tableEntry.

(** The order of the checks of [getVertices]: type, table entry, address. *)
Lemma getVertices_outcome (opts : VertexOpts.t) :
  getVertices ISOLINES_CODE_OFFSET_MAP ISOBANDS_CODE_OFFSET_MAP opts
  = if recognisedType opts then
      match selectedTemplates ISOLINES_CODE_OFFSET_MAP ISOBANDS_CODE_OFFSET_MAP opts with
      | None => Err UnmappedCode
      | Some ts =>
          if (VertexOpts.x opts >=? -1) && (VertexOpts.y opts >=? -1)
          then Ok (geometryOf opts ts)
          else Err OutOfRange
      end
    else Err UnsupportedType.
Proof.
  unfold recognisedType, selectedTemplates, geometryOf.
  destruct (strictEqZ (typeOrDefault (VertexOpts.type opts)) ISO_LINES) eqn:E1.
  - rewrite getVertices_lines by exact E1. reflexivity.
  - destruct (strictEqZ (typeOrDefault (VertexOpts.type opts)) ISO_BANDS) eqn:E2.
    + rewrite getVertices_bands by assumption. reflexivity.
    + rewrite getVertices_unsupported by assumption. reflexivity.
Qed.

(** X17.  [getVertices] returns geometry exactly when the type is
    recognised (ISO_LINES, ISO_BANDS or omitted), the table of that type
    has templates for the code (under the mean code, for a saddle entry),
    and neither coordinate of the cell is below -1. *)
Theorem getVertices_returns_iff (opts : VertexOpts.t) :
  (exists g, getVertices ISOLINES_CODE_OFFSET_MAP ISOBANDS_CODE_OFFSET_MAP opts = Ok g)
  <-> is_Some (selectedTemplates ISOLINES_CODE_OFFSET_MAP ISOBANDS_CODE_OFFSET_MAP opts)
      /\ -1 <= VertexOpts.x opts
      /\ -1 <= VertexOpts.y opts.
Proof.
  rewrite getVertices_outcome.
  destruct (recognisedType opts) eqn:Er.
  - destruct (selectedTemplates _ _ opts) as [ts|].
    + destruct ((VertexOpts.x opts >=? -1) && (VertexOpts.y opts >=? -1)) eqn:Exy.
      * split; [|eauto]. intros _. split; [eauto|]. apply address_floor_iff, Exy.
      * split; [intros [g Hg]; discriminate Hg|].
        intros [_ Hxy]. apply address_floor_iff in Hxy. congruence.
    + split; [intros [g Hg]; discriminate Hg | intros [[ts Hts] _]; discriminate Hts].
  - rewrite selectedTemplates_unrecognised by exact Er.
    split; [intros [g Hg]; discriminate Hg | intros [[ts Hts] _]; discriminate Hts].
Qed.

(** X18.  [getVertices] fails with UnmappedCode exactly when the type is
    recognised and its table has no templates for the code: no entry, or a
    saddle entry without the mean code.  The address is not looked at
    before. *)
Theorem getVertices_UnmappedCode_iff (opts : VertexOpts.t) :
  getVertices ISOLINES_CODE_OFFSET_MAP ISOBANDS_CODE_OFFSET_MAP opts = Err UnmappedCode
  <-> recognisedType opts = true
      /\ selectedTemplates ISOLINES_CODE_OFFSET_MAP ISOBANDS_CODE_OFFSET_MAP opts = None.
Proof.
  rewrite getVertices_outcome.
  destruct (recognisedType opts); [|split; [discriminate | intros [? _]; discriminate]].
  destruct (selectedTemplates _ _ opts) as [ts|].
  - destruct (_ && _); split; try discriminate; intros [_ ?]; discriminate.
  - split; auto.
Qed.

(** X19.  [getVertices] fails with OutOfRange exactly when the templates
    were found and a coordinate of the cell is below -1.  There is no
    upper bound: the grid size is not an input. *)
Theorem getVertices_OutOfRange_iff (opts : VertexOpts.t) :
  getVertices ISOLINES_CODE_OFFSET_MAP ISOBANDS_CODE_OFFSET_MAP opts = Err OutOfRange
  <-> is_Some (selectedTemplates ISOLINES_CODE_OFFSET_MAP ISOBANDS_CODE_OFFSET_MAP opts)
      /\ (VertexOpts.x opts < -1 \/ VertexOpts.y opts < -1).
Proof.
  rewrite getVertices_outcome.
  destruct (recognisedType opts) eqn:Er.
  - destruct (selectedTemplates _ _ opts) as [ts|].
    + destruct ((VertexOpts.x opts >=? -1) && (VertexOpts.y opts >=? -1)) eqn:Exy.
      * split; [discriminate|]. apply address_floor_iff in Exy. intros [_ ?]. lia.
      * split; [|reflexivity]. intros _. split; [eauto|].
        destruct (Z.lt_ge_cases (VertexOpts.x opts) (-1)) as [?|Hx]; [left; assumption|].
        destruct (Z.lt_ge_cases (VertexOpts.y opts) (-1)) as [?|Hy]; [right; assumption|].
        assert ((VertexOpts.x opts >=? -1) && (VertexOpts.y opts >=? -1) = true)
          by (apply address_floor_iff; lia).
        congruence.
    + split; [discriminate | intros [[ts Hts] _]; discriminate Hts].
  - rewrite selectedTemplates_unrecognised by exact Er.
    split; [discriminate | intros [[ts Hts] _]; discriminate Hts].
Qed.

End VertexOutcomes.

(** ** getVertices: the geometry *)

Section VertexGeometry.

Variable ISOLINES_CODE_OFFSET_MAP : gmap Z tableEntry.
Variable ISOBANDS_CODE_OFFSET_MAP : gmap Z tableEntry.

(** X20.  The geometry has the shape of the templates it comes from.  For
    iso-lines there is one vertex per offset of the templates, in one flat
    list; for iso-bands one polygon per template with one vertex per
    offset.  Every vertex has three coordinates and all share one depth
    (an empty list of templates gives an empty geometry). *)
Theorem getVertices_shape (opts : VertexOpts.t) (g : geometry) :
  getVertices ISOLINES_CODE_OFFSET_MAP ISOBANDS_CODE_OFFSET_MAP opts = Ok g ->
  exists ts,
    selectedTemplates ISOLINES_CODE_OFFSET_MAP ISOBANDS_CODE_OFFSET_MAP opts = Some ts
    /\ match g with
       | Vertices vs =>
           length vs = length (concat ts)
           /\ Forall (fun v => length v = 3%nat /\ v !! 2%nat = Some (depthOf opts)) vs
       | Polygons ps =>
           Forall2 (fun p t => length p = length t) ps ts
           /\ Forall (Forall (fun v => length v = 3%nat
                                     /\ v !! 2%nat = Some (depthOf opts))) ps
       end.
Proof.
  rewrite getVertices_outcome.
  destruct (recognisedType opts); [|discriminate].
  destruct (selectedTemplates _ _ opts) as [ts|]; [|discriminate].
  destruct (_ && _); [|discriminate].
  intros [= <-]. exists ts. split; [reflexivity|].
  unfold geometryOf.
  destruct (strictEqZ (typeOrDefault (VertexOpts.type opts)) ISO_LINES).
  - split; [apply length_flat_map_map|].
    apply Forall_forall. intros v Hv.
    apply list_elem_of_In, in_flat_map in Hv. destruct Hv as (t & _ & Hv).
    apply in_map_iff in Hv. destruct Hv as (o & <- & _).
    apply worldPoint_shape.
  - split.
    + induction ts as [|t ts IH]; simpl; constructor; [apply length_map | exact IH].
    + apply Forall_forall. intros p Hp.
      apply list_elem_of_In, in_map_iff in Hp. destruct Hp as (t & <- & _).
      apply Forall_forall. intros v Hv.
      apply list_elem_of_In, in_map_iff in Hv. destruct Hv as (o & <- & _).
      apply worldPoint_shape.
Qed.

(** X21.  The mean code is consulted for saddle entries only: when the
    tables hold no saddle entry for the code, [getVertices] returns the
    same whatever [meanCode] is. *)
Theorem getVertices_meanCode_unused (opts : VertexOpts.t) (meanCode : Z) :
  (forall byMeanCode,
      ISOLINES_CODE_OFFSET_MAP !! VertexOpts.code opts <> Some (Saddle byMeanCode)) ->
  (forall byMeanCode,
      ISOBANDS_CODE_OFFSET_MAP !! VertexOpts.code opts <> Some (Saddle byMeanCode)) ->
  getVertices ISOLINES_CODE_OFFSET_MAP ISOBANDS_CODE_OFFSET_MAP
    (withCodes opts (VertexOpts.code opts) meanCode)
  = getVertices ISOLINES_CODE_OFFSET_MAP ISOBANDS_CODE_OFFSET_MAP opts.
Proof.
  intros HL HB. unfold getVertices.
  cbn [withCodes VertexOpts.gridOrigin VertexOpts.cellSize VertexOpts.x VertexOpts.y
       VertexOpts.code VertexOpts.meanCode VertexOpts.type VertexOpts.thresholdData].
  destruct (strictEqZ (typeOrDefault (VertexOpts.type opts)) ISO_LINES).
  - cbn [bind].
    destruct (ISOLINES_CODE_OFFSET_MAP !! VertexOpts.code opts) as [[ts|m]|] eqn:E;
      [reflexivity | exfalso; exact (HL m eq_refl) | reflexivity].
  - destruct (strictEqZ (typeOrDefault (VertexOpts.type opts)) ISO_BANDS); [|reflexivity].
    cbn [bind].
    destruct (ISOBANDS_CODE_OFFSET_MAP !! VertexOpts.code opts) as [[ts|m]|] eqn:E;
      [reflexivity | exfalso; exact (HB m eq_refl) | reflexivity].
Qed.

(** X22.  [getCode] feeds [getVertices].  With an iso-line table that has
    templates for every code 0..15 under both mean codes, the code and mean
    code that [getCode] returns for a ScalarField, a valid address and a
    finite scalar threshold are always mapped: [getVertices], called for
    iso-lines at the same address, returns the vertices of the templates
    found. *)
Theorem getCode_getVertices_lines (opts : CodeOpts.t) (vopts : VertexOpts.t) :
  completeLinesTable ISOLINES_CODE_OFFSET_MAP ->
  ScalarField opts ->
  validAddress opts ->
  isFinite (snd (selectThreshold opts)) = true ->
  VertexOpts.x vopts = CodeOpts.x opts ->
  VertexOpts.y vopts = CodeOpts.y opts ->
  strictEqZ (typeOrDefault (VertexOpts.type vopts)) ISO_LINES = true ->
  exists code meanCode ts,
    snd (getCode opts) = Ok (code, meanCode)
    /\ lookupTemplates ISOLINES_CODE_OFFSET_MAP code meanCode = Some ts
    /\ getVertices ISOLINES_CODE_OFFSET_MAP ISOBANDS_CODE_OFFSET_MAP
         (withCodes vopts code meanCode)
       = Ok (Vertices (flat_map (map (worldPoint vopts)) ts)).
Proof.
  intros Hc Hf Ha Hfin Hx Hy Hty. rewrite getCode_unfold. cbn [snd].
  set (t := snd (selectThreshold opts)) in *.
  assert (isValueOrRange t = true) as Ht by (destruct t; try discriminate; exact Hfin).
  assert (isArray t = false) as Harr by (destruct t; try discriminate; reflexivity).
  rewrite getCodeWith_total by assumption.
  set (code := packCorners t (cornerRecords opts t)).
  set (meanCode := if isBoundary opts then 0
                   else classOf (meanWeight (cornerRecords opts t)) t).
  assert (0 <= code <= 15) as Hcode.
  { unfold code, packCorners, cornerRecords. rewrite Harr.
    cbn [top topRight right current].
    apply packLines_slots; apply class_cornerRecord_scalar, Hfin. }
  assert (0 <= meanCode <= 1) as Hmean.
  { unfold meanCode. destruct (isBoundary opts); [lia|].
    apply classOf_scalar_range, Hfin. }
  destruct (Hc code meanCode Hcode Hmean) as [ts Hts].
  exists code, meanCode, ts. split; [reflexivity|]. split; [exact Hts|].
  rewrite getVertices_lines by exact Hty.
  cbn [withCodes VertexOpts.code VertexOpts.meanCode VertexOpts.x VertexOpts.y].
  rewrite Hts.
  assert ((VertexOpts.x vopts >=? -1) && (VertexOpts.y vopts >=? -1) = true) as ->.
  { apply address_floor_iff. destruct Ha. lia. }
  reflexivity.
Qed.

End VertexGeometry.

Lemma fullLinesTable_complete : completeLinesTable fullLinesTable.
Proof.
  intros code meanCode Hc Hm.
  assert (meanCode = 0 \/ meanCode = 1) as [-> | ->] by lia;
    assert (code = 0 \/ code = 1 \/ code = 2 \/ code = 3 \/ code = 4 \/ code = 5
            \/ code = 6 \/ code = 7 \/ code = 8 \/ code = 9 \/ code = 10 \/ code = 11
            \/ code = 12 \/ code = 13 \/ code = 14 \/ code = 15)
      as [->|[->|[->|[->|[->|[->|[->|[->|[->|[->|[->|[->|[->|[->|[->| ->]]]]]]]]]]]]]]]
      by lia;
    vm_compute; eexists; reflexivity.
Qed.

Lemma getVertices_shape_witness :
  exists ts,
    selectedTemplates sampleLinesTable sampleBandsTable
      (sampleVertexOpts (VNum (num_of_Z 1)) 5 1) = Some ts
    /\ length [ [Fin 100; Fin (420 # 2); Fin (0 # 1000)];
                [Fin (210 # 2); Fin 200; Fin (0 # 1000)];
                [Fin (210 # 2); Fin 220; Fin (0 # 1000)];
                [Fin 110; Fin (420 # 2); Fin (0 # 1000)] ]
       = length (concat ts)
    /\ Forall (fun v => length v = 3%nat
                        /\ v !! 2%nat
                           = Some (depthOf (sampleVertexOpts (VNum (num_of_Z 1)) 5 1)))
         [ [Fin 100; Fin (420 # 2); Fin (0 # 1000)];
           [Fin (210 # 2); Fin 200; Fin (0 # 1000)];
           [Fin (210 # 2); Fin 220; Fin (0 # 1000)];
           [Fin 110; Fin (420 # 2); Fin (0 # 1000)] ].
Proof.
  apply (getVertices_shape sampleLinesTable sampleBandsTable
           (sampleVertexOpts (VNum (num_of_Z 1)) 5 1)
           (Vertices [ [Fin 100; Fin (420 # 2); Fin (0 # 1000)];
                       [Fin (210 # 2); Fin 200; Fin (0 # 1000)];
                       [Fin (210 # 2); Fin 220; Fin (0 # 1000)];
                       [Fin 110; Fin (420 # 2); Fin (0 # 1000)] ])).
  vm_compute. reflexivity.
Defined.

Lemma getVertices_meanCode_unused_witness :
  getVertices sampleLinesTable sampleBandsTable
    (withCodes (sampleVertexOpts VUndefined 4 0) 4 7)
  = getVertices sampleLinesTable sampleBandsTable (sampleVertexOpts VUndefined 4 0).
Proof.
  apply (getVertices_meanCode_unused sampleLinesTable sampleBandsTable
           (sampleVertexOpts VUndefined 4 0) 7).
  - intros m. vm_compute. discriminate.
  - intros m. vm_compute. discriminate.
Defined.

Lemma getCode_getVertices_lines_witness :
  exists code meanCode ts,
    snd (getCode (scenarioCell (VNum (num_of_Z 5)) 0 0)) = Ok (code, meanCode)
    /\ lookupTemplates fullLinesTable code meanCode = Some ts
    /\ getVertices fullLinesTable sampleBandsTable
         (withCodes (sampleVertexOpts VUndefined 0 0) code meanCode)
       = Ok (Vertices (flat_map (map (worldPoint (sampleVertexOpts VUndefined 0 0))) ts)).
Proof.
  apply (getCode_getVertices_lines fullLinesTable sampleBandsTable
           (scenarioCell (VNum (num_of_Z 5)) 0 0) (sampleVertexOpts VUndefined 0 0)).
  - exact fullLinesTable_complete.
  - unfold ScalarField. simpl. repeat split; try lia. repeat constructor.
  - unfold validAddress. simpl. lia.
  - reflexivity.
  - reflexivity.
  - reflexivity.
  - reflexivity.
Defined.
